(** * phono: the conversion request pipeline

    A shallow embedding of the sink builders (packages [input] and [file]),
    the form parser (package [form]) and the HTTP conversion handler
    (package [controller]) of phono, together with the properties the
    specification states about them.

    Conventions.
    - Go [int] and [int64] values are [Z]; no function below does arithmetic
      on them, so no wrap-around arises (the one conversion from text,
      [strconv.Atoi], rejects what does not fit 64 bits).
    - Go strings are byte strings ([string]).
    - A Go map used as a set ([map[T]struct{}]) is a [gset]; [url.Values]
      is a [gmap] from keys to value lists.
    - A Go [(value, error)] pair is a [result]; every [fmt.Errorf] site is
      one constructor of [error], carrying the values it formats.
    - The handler runs in a small monad that threads the trace of the
      calls it makes on the outside world and its stack of deferred calls. *)

From Stdlib Require Import ZArith String Ascii List Bool Lia DecimalString
  DecimalPos.
From stdpp Require Import base decidable option list gmap strings.

Local Open Scope Z_scope.
Local Open Scope string_scope.

(* ===================================================================== *)
(** * Go standard library functions used by the code *)
(* ===================================================================== *)

Module strings.

(** [strings.ToLower] / [strings.ToUpper], on the ASCII range: the bytes
    'A'..'Z' (resp. 'a'..'z') are shifted by 32, every other byte is kept.
    This is what Go computes on any string made of ASCII bytes. *)
Definition lower_byte (c : ascii) : ascii :=
  let n := N_of_ascii c in
  if ((65 <=? n) && (n <=? 90))%N then ascii_of_N (n + 32) else c.

Definition upper_byte (c : ascii) : ascii :=
  let n := N_of_ascii c in
  if ((97 <=? n) && (n <=? 122))%N then ascii_of_N (n - 32) else c.

Fixpoint ToLower (s : string) : string :=
  match s with
  | EmptyString => EmptyString
  | String c rest => String (lower_byte c) (ToLower rest)
  end.

Fixpoint ToUpper (s : string) : string :=
  match s with
  | EmptyString => EmptyString
  | String c rest => String (upper_byte c) (ToUpper rest)
  end.

(** [strings.HasSuffix]:
    [len(s) >= len(suffix) && s[len(s)-len(suffix):] == suffix]. *)
Definition HasSuffix (s suffix : string) : bool :=
  (String.length suffix <=? String.length s)%nat
  && String.eqb
       (substring (String.length s - String.length suffix)
                  (String.length suffix) s)
       suffix.

End strings.

Module filepath.

(** [filepath.Ext]: walk back from the last byte while no path separator
    is met; at the first dot return the suffix that starts there.
    [rest] is the part of the path still to visit, last byte first;
    [seen] is the suffix already walked over. *)
Fixpoint ext_loop (rest : list ascii) (seen : list ascii) : list ascii :=
  match rest with
  | [] => []
  | c :: more =>
      if Ascii.eqb c "/" then []
      else if Ascii.eqb c "." then c :: seen
      else ext_loop more (c :: seen)
  end.

Definition Ext (path : string) : string :=
  string_of_list_ascii (ext_loop (rev (list_ascii_of_string path)) []).

End filepath.

Module path.

(** [path.Base]: "." for the empty path; trailing slashes are stripped,
    then everything up to the last slash; "/" when nothing is left. *)
Fixpoint strip_slashes (r : list ascii) : list ascii :=
  match r with
  | c :: more => if Ascii.eqb c "/" then strip_slashes more else r
  | [] => []
  end.

Fixpoint last_element (r : list ascii) (seen : list ascii) : list ascii :=
  match r with
  | [] => seen
  | c :: more => if Ascii.eqb c "/" then seen else last_element more (c :: seen)
  end.

Definition Base (p : string) : string :=
  match p with
  | EmptyString => "."
  | _ =>
      match last_element (strip_slashes (rev (list_ascii_of_string p))) [] with
      | [] => "/"
      | l => string_of_list_ascii l
      end
  end.

End path.

Module strconv.

Definition is_digit (c : ascii) : bool :=
  let n := N_of_ascii c in ((48 <=? n) && (n <=? 57))%N.

Definition digit (c : ascii) : Z := (Z.of_N (N_of_ascii c) - 48)%Z.

(** The digit loop of [ParseUint] in base 10: any other byte is a syntax
    error. *)
Fixpoint parse_digits (s : string) (acc : Z) : option Z :=
  match s with
  | EmptyString => Some acc
  | String c rest =>
      if is_digit c then parse_digits rest (acc * 10 + digit c)%Z else None
  end.

(** [strconv.Atoi]: an optional sign, then at least one decimal digit;
    the value must fit an [int] (64 bits).  [None] stands for the
    [*NumError] (syntax or range), whose text is a function of the input. *)
Definition Atoi (s : string) : option Z :=
  match s with
  | EmptyString => None
  | String c rest =>
      let neg := Ascii.eqb c "-" in
      let body := if Ascii.eqb c "+" || neg then rest else s in
      match body with
      | EmptyString => None
      | _ =>
          match parse_digits body 0 with
          | None => None
          | Some un =>
              if neg then (if (2 ^ 63 <? un)%Z then None else Some (- un)%Z)
              else (if (2 ^ 63 <=? un)%Z then None else Some un)
          end
      end
  end.

(** [strconv.FormatInt(i, 10)]. *)
Definition FormatInt (i : Z) : string := NilZero.string_of_int (Z.to_int i).

(** [strconv.ParseBool]: exactly these twelve spellings. *)
Definition ParseBool (str : string) : option bool :=
  if existsb (String.eqb str) ["1"; "t"; "T"; "true"; "TRUE"; "True"]
  then Some true
  else if existsb (String.eqb str) ["0"; "f"; "F"; "false"; "FALSE"; "False"]
  then Some false
  else None.

End strconv.

Module url.

(** [url.Values] is [map[string][]string]. *)
Abbreviation Values := (gmap string (list string)).

(** [Values.Get]: the first value of the key, "" when there is none. *)
Definition Get (v : Values) (key : string) : string :=
  match v !! key with
  | Some (x :: _) => x
  | _ => ""
  end.

End url.

(* ===================================================================== *)
(** * Errors and results *)
(* ===================================================================== *)

(** One constructor per [fmt.Errorf] site of the repository, with the
    values the message formats; [ErrExternal] is an error handed back by a
    library or by the operating system. *)
Inductive error : Type :=
| ErrBitDepth (bitDepth : Z)
    (* "Bit depth %v is not supported" *)
| ErrChannelMode (cm : Z)
    (* "Channel mode %v is not supported" *)
| ErrVBRQuality (bitRate : Z)
    (* "VBR quality %v is not supported" *)
| ErrBitRate (v minBitRate maxBitRate : Z)
    (* "Bit rate %v is not supported. Provide value between %d and %d" *)
| ErrVBRMode (bitRateMode : string)
    (* package input: "VBR mode %v is not supported" *)
| ErrBitRateMode (bitRateMode : string)
    (* package file: "Bit rate mode %v is not supported" *)
| ErrMP3Quality (quality : Z)
    (* "MP3 quality %v is not supported" *)
| ErrUnsupportedExtension (fileName : string)
    (* "File has unsupported extension: %v" *)
| ErrFormatNotSupported (ext : string)
    (* InputMaxSize: "Format %s not supported" *)
| ErrUnsupportedFormat (ext : string)
    (* ParseSink: "Unsupported format: %v" *)
| ErrNoBitRateMode
    (* "Please provide bit rate mode" *)
| ErrNotProvided (name : string)
    (* "%s not provided" *)
| ErrFailedParsing (name str : string)
    (* "Failed parsing %s %s: %v" *)
| ErrBuildPipe (cause : error)
    (* "Failed to build pipe: %v" *)
| ErrExecutePipe (cause : error)
    (* "Failed to execute pipe: %v" *)
| ErrResetTemp (cause : error)
    (* "Failed to reset temp file: %v" *)
| ErrFileStats (cause : error)
    (* "Failed to get file stats: %v" *)
| ErrTransfer (cause : error)
    (* "Failed to transfer file: %v" *)
| ErrBodyTooLarge
    (* net/http: "http: request body too large" *)
| ErrExternal (msg : string).

Inductive result (A : Type) : Type :=
| Ok (a : A)
| Err (e : error).
Arguments Ok {A} a.
Arguments Err {A} e.

Definition is_ok {A} (r : result A) : bool :=
  match r with Ok _ => true | Err _ => false end.

(* ===================================================================== *)
(** * The codec packages the repository builds on *)
(* ===================================================================== *)

(** A stream handed to a pump or a sink: the uploaded file of a request or
    a temporary file, by name. *)
Inductive stream : Type :=
| Upload (fileName : string)
| TempFile (name : string).

Module signal.
(** Modelled from the spec: the declaration of [signal.BitDepth] and of
    its constants [BitDepth8] .. [BitDepth32] is not among the sources.
    The spec gives the bit depths of the uncompressed format as
    {8,16,24,32}: each constant is the number of bits its name gives, and
    the conversion [signal.BitDepth(bitDepth)] keeps the value. *)
Definition BitDepth : Type := Z.
Definition BitDepth8 : BitDepth := 8.
Definition BitDepth16 : BitDepth := 16.
Definition BitDepth24 : BitDepth := 24.
Definition BitDepth32 : BitDepth := 32.
End signal.

Module wav.
Record Sink : Type := { BitDepth : signal.BitDepth; WriteSeeker : stream }.
Definition DefaultExtension : string := ".wav".
End wav.

Module mp3.
Definition ChannelMode : Type := Z.

(** The three channel-mode constants of the package.  Their numeric
    values belong to the codec binding; the code only ever uses them as
    the members of the supported set, so they are kept abstract. *)
Class Modes : Type :=
  { JointStereo : ChannelMode; Stereo : ChannelMode; Mono : ChannelMode }.

(** [mp3.VBR(q)], [mp3.CBR(r)], [mp3.ABR(r)]. *)
Inductive BitRateMode : Type :=
| VBR (quality : Z)
| CBR (bitRate : Z)
| ABR (bitRate : Z).

(** [Quality] is [Some q] once [SetQuality(q)] has been called. *)
Record Sink : Type :=
  { SinkBitRateMode : BitRateMode;
    SinkChannelMode : ChannelMode;
    Writer : stream;
    Quality : option Z }.

Definition SetQuality (s : Sink) (q : Z) : Sink :=
  {| SinkBitRateMode := SinkBitRateMode s;
     SinkChannelMode := SinkChannelMode s;
     Writer := Writer s;
     Quality := Some q |}.

Definition DefaultExtension : string := ".mp3".
End mp3.

Module pipe.
Inductive Pump : Type :=
| WavPump (rs : stream)
| Mp3Pump (rs : stream)
| FlacPump (rs : stream).

Inductive Sink : Type :=
| WavSink (s : wav.Sink)
| Mp3Sink (s : mp3.Sink).
End pipe.

(* ===================================================================== *)
(** * Package input (input.go) *)
(* ===================================================================== *)

Module input.

(** [BuildFunc] is used to inject the output into the sink. *)
Definition BuildFunc : Type := stream -> pipe.Sink.

Module wavFormat.
Record t : Type :=
  { DefaultExtension : string;
    Extensions : list string;
    BitDepths : gset signal.BitDepth }.

Definition Pump (f : t) (rs : stream) : pipe.Pump := pipe.WavPump rs.

(** [Build] validates the bit depth; if valid, the build closure is
    returned. *)
Definition Build (f : t) (bitDepth : Z) : result BuildFunc :=
  let bd : signal.BitDepth := bitDepth in
  if decide (bd ∈ BitDepths f) then
    Ok (fun ws => pipe.WavSink {| wav.BitDepth := bd; wav.WriteSeeker := ws |})
  else Err (ErrBitDepth bitDepth).
End wavFormat.

Module mp3Format.
Record t : Type :=
  { DefaultExtension : string;
    Extensions : list string;
    MaxBitRate : Z;
    MinBitRate : Z;
    ChannelModes : gset mp3.ChannelMode;
    VBR : string;
    CBR : string;
    ABR : string }.

Definition Pump (f : t) (rs : stream) : pipe.Pump := pipe.Mp3Pump rs.

(** [bitRate] checks if the provided bit rate is supported. *)
Definition bitRate (f : t) (v : Z) : option error :=
  if (MaxBitRate f <? v)%Z || (v <? MinBitRate f)%Z
  then Some (ErrBitRate v (MinBitRate f) (MaxBitRate f))
  else None.

(** The closure [Build] returns. *)
Definition sink (brm : mp3.BitRateMode) (cm : mp3.ChannelMode)
    (useQuality : bool) (quality : Z) : BuildFunc :=
  fun ws =>
    let s := {| mp3.SinkBitRateMode := brm; mp3.SinkChannelMode := cm;
                mp3.Writer := ws; mp3.Quality := None |} in
    pipe.Mp3Sink (if useQuality then mp3.SetQuality s quality else s).

(** [Build] validates all parameters required to build the mp3 sink. *)
Definition Build (f : t) (bitRateMode : string) (bitRate_ channelMode : Z)
    (useQuality : bool) (quality : Z) : result BuildFunc :=
  let cm : mp3.ChannelMode := channelMode in
  if decide (cm ∈ ChannelModes f) then
    let mode : result mp3.BitRateMode :=
      if String.eqb bitRateMode (VBR f) then
        if (bitRate_ <? 0)%Z || (9 <? bitRate_)%Z
        then Err (ErrVBRQuality bitRate_)
        else Ok (mp3.VBR bitRate_)
      else if String.eqb bitRateMode (CBR f) then
        match bitRate f bitRate_ with
        | Some err => Err err
        | None => Ok (mp3.CBR bitRate_)
        end
      else if String.eqb bitRateMode (ABR f) then
        match bitRate f bitRate_ with
        | Some err => Err err
        | None => Ok (mp3.ABR bitRate_)
        end
      else Err (ErrVBRMode bitRateMode) in
    match mode with
    | Err e => Err e
    | Ok brm =>
        if useQuality then
          if (quality <? 0)%Z || (9 <? quality)%Z
          then Err (ErrMP3Quality quality)
          else Ok (sink brm cm useQuality quality)
        else Ok (sink brm cm useQuality quality)
    end
  else Err (ErrChannelMode cm).
End mp3Format.

(** [Wav] provides logic required to process input of wav files. *)
Definition Wav : wavFormat.t :=
  {| wavFormat.DefaultExtension := ".wav";
     wavFormat.Extensions := [".wav"; ".wave"];
     wavFormat.BitDepths :=
       {[ signal.BitDepth8; signal.BitDepth16;
          signal.BitDepth24; signal.BitDepth32 ]} |}.

(** [Mp3] provides logic required to process input of mp3 files. *)
Definition Mp3 `{mp3.Modes} : mp3Format.t :=
  {| mp3Format.DefaultExtension := ".mp3";
     mp3Format.Extensions := [".mp3"];
     mp3Format.MinBitRate := 8;
     mp3Format.MaxBitRate := 320;
     mp3Format.ChannelModes := {[ mp3.JointStereo; mp3.Stereo; mp3.Mono ]};
     mp3Format.VBR := "VBR";
     mp3Format.ABR := "ABR";
     mp3Format.CBR := "CBR" |}.

(** [ConvertForm] provides the html form to the user.  [Data], the
    rendered page, is only ever copied to the response and is not
    modelled.  [ParseSink] returns Go's three results as they are:
    the build closure (or nil), the extension and the error (or nil). *)
Class ConvertForm (F : Type) : Type :=
  { InputMaxSize : F -> string -> result Z;
    FileKey : F -> string;
    ParseSink : F -> url.Values -> option BuildFunc * string * option error }.

(** [HasExtension] validates if the file name has one of the passed
    extensions.  The file name is lower-cased before comparison. *)
Definition HasExtension (fileName : string) (exts : list string) : bool :=
  let name := strings.ToLower fileName in
  existsb (fun ext => strings.HasSuffix name ext) exts.

(** ** What the user provides as input

    [Pump] and [Sink] hold pointers.  A pointer is an address of the
    heap, nil being [None]; the heap holds the sinks the pointers lead
    to, so that a store through a pointer is seen by every copy of it. *)
Definition addr : Type := positive.

Record Heap : Type :=
  { mp3Sinks : gmap addr mp3.Sink;
    wavSinks : gmap addr wav.Sink }.

(** [Pump] contains all pumps, [Sink] all sinks, the user can provide. *)
Record Pump : Type :=
  { PumpWav : option addr;
    PumpMp3 : option addr }.

Record Sink : Type :=
  { SinkMp3 : option addr;
    SinkWav : option addr }.

(** A [pipe.Pump] or [pipe.Sink] interface value: the pointer it wraps. *)
Inductive ref : Type :=
| Mp3Ref (p : addr)
| WavRef (p : addr).

Definition non_nil (p : option addr) : bool :=
  match p with Some _ => true | None => false end.

Definition Sink_mp3 (s : Sink) : bool := non_nil (SinkMp3 s).
Definition Sink_wav (s : Sink) : bool := non_nil (SinkWav s).
Definition Pump_mp3 (p : Pump) : bool := non_nil (PumpMp3 p).
Definition Pump_wav (p : Pump) : bool := non_nil (PumpWav p).

(** [p.Writer = ws] and [p.WriteSeeker = ws]: a store through a nil
    pointer panics ([None]). *)
Definition store_Writer (p : option addr) (ws : stream) (h : Heap)
    : option Heap :=
  match p with
  | None => None
  | Some a =>
      Some {| mp3Sinks :=
                alter (fun s => {| mp3.SinkBitRateMode := mp3.SinkBitRateMode s;
                                   mp3.SinkChannelMode := mp3.SinkChannelMode s;
                                   mp3.Writer := ws;
                                   mp3.Quality := mp3.Quality s |})
                      a (mp3Sinks h);
              wavSinks := wavSinks h |}
  end.

Definition store_WriteSeeker (p : option addr) (ws : stream) (h : Heap)
    : option Heap :=
  match p with
  | None => None
  | Some a =>
      Some {| mp3Sinks := mp3Sinks h;
              wavSinks :=
                alter (fun s => {| wav.BitDepth := wav.BitDepth s;
                                   wav.WriteSeeker := ws |})
                      a (wavSinks h) |}
  end.

(** [SetOutput] to the sink provided as input. *)
Definition SetOutput (s : Sink) (ws : stream) (h : Heap) : option Heap :=
  if Sink_mp3 s then store_Writer (SinkMp3 s) ws h
  else if Sink_wav s then store_WriteSeeker (SinkWav s) ws h
  else Some h.

(** [Extension] of the file for the sink. *)
Definition Extension (s : Sink) : string :=
  if Sink_mp3 s then mp3.DefaultExtension
  else if Sink_wav s then wav.DefaultExtension
  else "".

(** [Sink] provided as input: the nil interface when neither is set. *)
Definition Sink_Sink (s : Sink) : option ref :=
  if Sink_mp3 s then option_map Mp3Ref (SinkMp3 s)
  else if Sink_wav s then option_map WavRef (SinkWav s)
  else None.

(** [Pump] provided as input. *)
Definition Pump_Pump (p : Pump) : option ref :=
  if Pump_mp3 p then option_map Mp3Ref (PumpMp3 p)
  else if Pump_wav p then option_map WavRef (PumpWav p)
  else None.

End input.

(* ===================================================================== *)
(** * Package form as it was under input/ (convert.go) *)
(* ===================================================================== *)

Module inputform.

Section Tables.
Context `{mp3.Modes}.

(** [maxSizes]: the limit of every extension of the two formats. *)
Definition maxSizes (wavMaxSize mp3MaxSize : Z) : gmap string Z :=
  let m : gmap string Z := ∅ in
  let m := foldl (fun m ext => <[ext := mp3MaxSize]> m) m
                 (input.mp3Format.Extensions input.Mp3) in
  foldl (fun m ext => <[ext := wavMaxSize]> m) m
        (input.wavFormat.Extensions input.Wav).
End Tables.

(** [ext[1:]]: the string without its first byte; slicing the empty
    string from 1 panics ([None]). *)
Definition from_1 (ext : string) : option string :=
  match ext with
  | EmptyString => None
  | String _ rest => Some rest
  end.

(** [outFormats] maps the extensions with values without dots. *)
Definition outFormats (exts : list string) : option (gmap string string) :=
  foldl (fun acc ext =>
           match acc with
           | None => None
           | Some m =>
               match from_1 ext with
               | None => None
               | Some value => Some (<[ext := value]> m)
               end
           end)
        (Some ∅) exts.

End inputform.

(* ===================================================================== *)
(** * Package file (file.go) *)
(* ===================================================================== *)

Module file.

(** [BuildPumpFunc] injects the source into the pump, [BuildSinkFunc]
    the destination into the sink. *)
Definition BuildPumpFunc : Type := stream -> pipe.Pump.
Definition BuildSinkFunc : Type := stream -> pipe.Sink.

Module wavFormat.
Record t : Type :=
  { DefaultExtension : string;
    Extensions : gset string;
    BitDepths : gset signal.BitDepth }.

(** [BuildSink] validates the bit depth; the closure postpones io
    until all sink parameters are validated. *)
Definition BuildSink (f : t) (bitDepth : Z) : result BuildSinkFunc :=
  let bd : signal.BitDepth := bitDepth in
  if decide (bd ∈ BitDepths f) then
    Ok (fun ws => pipe.WavSink {| wav.BitDepth := bd; wav.WriteSeeker := ws |})
  else Err (ErrBitDepth bitDepth).
End wavFormat.

Module mp3Format.
Record t : Type :=
  { DefaultExtension : string;
    Extensions : gset string;
    MaxBitRate : Z;
    MinBitRate : Z;
    ChannelModes : gset mp3.ChannelMode;
    VBR : string;
    CBR : string;
    ABR : string }.

Definition bitRate (f : t) (v : Z) : option error :=
  if (MaxBitRate f <? v)%Z || (v <? MinBitRate f)%Z
  then Some (ErrBitRate v (MinBitRate f) (MaxBitRate f))
  else None.

Definition sink (brm : mp3.BitRateMode) (cm : mp3.ChannelMode)
    (useQuality : bool) (quality : Z) : BuildSinkFunc :=
  fun ws =>
    let s := {| mp3.SinkBitRateMode := brm; mp3.SinkChannelMode := cm;
                mp3.Writer := ws; mp3.Quality := None |} in
    pipe.Mp3Sink (if useQuality then mp3.SetQuality s quality else s).

(** [BuildSink] validates all parameters required to build the mp3
    sink.  The switch is on [strings.ToUpper(bitRateMode)]. *)
Definition BuildSink (f : t) (bitRateMode : string)
    (bitRate_ channelMode : Z) (useQuality : bool) (quality : Z)
    : result BuildSinkFunc :=
  let cm : mp3.ChannelMode := channelMode in
  if decide (cm ∈ ChannelModes f) then
    let tag := strings.ToUpper bitRateMode in
    let mode : result mp3.BitRateMode :=
      if String.eqb tag (VBR f) then
        if (bitRate_ <? 0)%Z || (9 <? bitRate_)%Z
        then Err (ErrVBRQuality bitRate_)
        else Ok (mp3.VBR bitRate_)
      else if String.eqb tag (CBR f) then
        match bitRate f bitRate_ with
        | Some err => Err err
        | None => Ok (mp3.CBR bitRate_)
        end
      else if String.eqb tag (ABR f) then
        match bitRate f bitRate_ with
        | Some err => Err err
        | None => Ok (mp3.ABR bitRate_)
        end
      else Err (ErrBitRateMode bitRateMode) in
    match mode with
    | Err e => Err e
    | Ok brm =>
        if useQuality then
          if (quality <? 0)%Z || (9 <? quality)%Z
          then Err (ErrMP3Quality quality)
          else Ok (sink brm cm useQuality quality)
        else Ok (sink brm cm useQuality quality)
    end
  else Err (ErrChannelMode cm).
End mp3Format.

Module flacFormat.
Record t : Type :=
  { DefaultExtension : string;
    Extensions : gset string }.
End flacFormat.

(** [Wav] provides structures required to handle wav files. *)
Definition Wav : wavFormat.t :=
  {| wavFormat.DefaultExtension := ".wav";
     wavFormat.Extensions := {[ ".wav"; ".wave" ]};
     wavFormat.BitDepths :=
       {[ signal.BitDepth8; signal.BitDepth16;
          signal.BitDepth24; signal.BitDepth32 ]} |}.

(** [Mp3] provides structures required to handle mp3 files. *)
Definition Mp3 `{mp3.Modes} : mp3Format.t :=
  {| mp3Format.DefaultExtension := ".mp3";
     mp3Format.Extensions := {[ ".mp3" ]};
     mp3Format.MinBitRate := 8;
     mp3Format.MaxBitRate := 320;
     mp3Format.ChannelModes := {[ mp3.JointStereo; mp3.Stereo; mp3.Mono ]};
     mp3Format.VBR := "VBR";
     mp3Format.ABR := "ABR";
     mp3Format.CBR := "CBR" |}.

(** [Flac] provides structures required to handle flac files. *)
Definition Flac : flacFormat.t :=
  {| flacFormat.DefaultExtension := ".flac";
     flacFormat.Extensions := {[ ".flac" ]} |}.

(** [hasExtension]: membership of [ext] in the extension set. *)
Definition hasExtension (ext : string) (exts : gset string) : bool :=
  bool_decide (ext ∈ exts).

(** [Pump] returns the pump for the provided file source.  The type of
    the pump is determined by the file extension. *)
Definition Pump `{mp3.Modes} (fileName : string) : result BuildPumpFunc :=
  let ext := strings.ToLower (filepath.Ext fileName) in
  if hasExtension ext (wavFormat.Extensions Wav) then Ok pipe.WavPump
  else if hasExtension ext (mp3Format.Extensions Mp3) then Ok pipe.Mp3Pump
  else if hasExtension ext (flacFormat.Extensions Flac) then Ok pipe.FlacPump
  else Err (ErrUnsupportedExtension fileName).

End file.

(* ===================================================================== *)
(** * Package form (encode.go) *)
(* ===================================================================== *)

Module fileformat.
(** The format registry package [form] consults ([fileformat.WAV],
    [.MP3], [.FLAC]).  Its declaration is not among the sources; each
    format is taken with the default extension and the extensions that
    packages [input] and [file] register for it. *)
Record Format : Type :=
  { DefaultExtension : string;
    Extensions : list string }.

Definition WAV : Format :=
  {| DefaultExtension := ".wav"; Extensions := [".wav"; ".wave"] |}.
Definition MP3 : Format :=
  {| DefaultExtension := ".mp3"; Extensions := [".mp3"] |}.
Definition FLAC : Format :=
  {| DefaultExtension := ".flac"; Extensions := [".flac"] |}.
End fileformat.

Module form.

(** [Encode] provides user interaction via http form. *)
Record Encode : Type :=
  { WavMaxSize : Z;
    Mp3MaxSize : Z;
    FlacMaxSize : Z }.

Definition FileKey : string := "input-file".

(** [maxSizes]: the limit of every accepted extension, as handed to the
    page template. *)
Definition maxSizes (wav mp3 flac : Z) : gmap string Z :=
  let m : gmap string Z := ∅ in
  let m := foldl (fun m ext => <[ext := mp3]> m) m
                 (fileformat.Extensions fileformat.MP3) in
  let m := foldl (fun m ext => <[ext := wav]> m) m
                 (fileformat.Extensions fileformat.WAV) in
  foldl (fun m ext => <[ext := flac]> m) m
        (fileformat.Extensions fileformat.FLAC).

(** [inputExtensions]: the extensions of the formats, in order. *)
Definition inputExtensions (formats : list fileformat.Format) : list string :=
  foldl (fun result f => (result ++ fileformat.Extensions f)%list) [] formats.

(** [outputExtensions]: the default extension of each format. *)
Definition outputExtensions (formats : list fileformat.Format) : list string :=
  foldl (fun result f => (result ++ [fileformat.DefaultExtension f])%list) []
        formats.

(** The two lists of [encodeFormData]: what the file input accepts ([Accept]
    is this list joined with ", ") and the output formats offered. *)
Definition AcceptExtensions : list string :=
  inputExtensions [fileformat.WAV; fileformat.MP3; fileformat.FLAC].

Definition OutFormats : list string :=
  outputExtensions [fileformat.WAV; fileformat.MP3].

(** The size check of the page's [onSubmitClick] script, one case per
    entry of [MaxSizes]: [if (maxSize > 0 && maxSize < size)] the file
    is refused as too big. *)
Definition onSubmitClick_tooBig (maxSize size : Z) : bool :=
  (0 <? maxSize)%Z && (maxSize <? size)%Z.

(** [InputMaxSize] of file from http request. *)
Definition InputMaxSize (c : Encode) (url : string) : result Z :=
  let ext := strings.ToLower (path.Base url) in
  if String.eqb ext (fileformat.DefaultExtension fileformat.MP3)
  then Ok (Mp3MaxSize c)
  else if String.eqb ext (fileformat.DefaultExtension fileformat.WAV)
  then Ok (WavMaxSize c)
  else if String.eqb ext (fileformat.DefaultExtension fileformat.FLAC)
  then Ok (FlacMaxSize c)
  else Err (ErrFormatNotSupported ext).

(** [parseIntValue] parses the value of a key of the html form.  Error
    if the value is not provided or cannot be parsed as int. *)
Definition parseIntValue (data : url.Values) (key name : string) : result Z :=
  let str := url.Get data key in
  if String.eqb str "" then Err (ErrNotProvided name)
  else match strconv.Atoi str with
       | None => Err (ErrFailedParsing name str)
       | Some val => Ok val
       end.

(** [parseBoolValue]: false if the value is not provided; error when it
    cannot be parsed as bool. *)
Definition parseBoolValue (data : url.Values) (key name : string) : result bool :=
  let str := url.Get data key in
  if String.eqb str "" then Ok false
  else match strconv.ParseBool str with
       | None => Err (ErrFailedParsing name str)
       | Some val => Ok val
       end.

Section Sinks.
Context `{mp3.Modes}.

(** encode.go reaches the builders of package [input] as
    [input.WAV.Sink] and [input.MP3.Sink]; they are the builders
    input.go declares as [wavFormat.Build] and [mp3Format.Build]. *)
Definition parseWAVSink (data : url.Values) : result input.BuildFunc :=
  match parseIntValue data "wav-bit-depth" "bit depth" with
  | Err err => Err err
  | Ok bitDepth => input.wavFormat.Build input.Wav bitDepth
  end.

Definition parseMP3Sink (data : url.Values) : result input.BuildFunc :=
  (* try to get channel mode *)
  match parseIntValue data "mp3-channel-mode" "channel mode" with
  | Err err => Err err
  | Ok channelMode =>
      (* try to get bit rate mode *)
      let bitRateMode := url.Get data "mp3-bit-rate-mode" in
      if String.eqb bitRateMode "" then Err ErrNoBitRateMode
      else
        let bitRate : result Z :=
          if String.eqb bitRateMode (input.mp3Format.VBR input.Mp3)
          then parseIntValue data "mp3-vbr-quality" "vbr quality"
          else if String.eqb bitRateMode (input.mp3Format.CBR input.Mp3)
          then parseIntValue data "mp3-bit-rate" "bit rate"
          else if String.eqb bitRateMode (input.mp3Format.ABR input.Mp3)
          then parseIntValue data "mp3-bit-rate" "bit rate"
          else Ok 0%Z in
        match bitRate with
        | Err err => Err err
        | Ok bitRate =>
            (* try to get mp3 quality *)
            match parseBoolValue data "mp3-use-quality" "mp3 quality" with
            | Err err => Err err
            | Ok useQuality =>
                let quality : result Z :=
                  if useQuality
                  then parseIntValue data "mp3-quality" "mp3 quality"
                  else Ok 0%Z in
                match quality with
                | Err err => Err err
                | Ok quality =>
                    input.mp3Format.Build input.Mp3 bitRateMode bitRate
                      channelMode useQuality quality
                end
            end
        end
  end.

(** A Go [(fn, err)] pair out of a [result]. *)
Definition pair_of_result {A} (r : result A) : option A * option error :=
  match r with
  | Ok fn => (Some fn, None)
  | Err err => (None, Some err)
  end.

(** [ParseSink] provided via form: the closure, the extension and the
    error, [ext] being reset to "" when [err] is not nil. *)
Definition ParseSink (c : Encode) (data : url.Values)
    : option input.BuildFunc * string * option error :=
  let ext := strings.ToLower (url.Get data "format") in
  let '(fn, err) :=
    if String.eqb ext (fileformat.DefaultExtension fileformat.WAV)
    then pair_of_result (parseWAVSink data)
    else if String.eqb ext (fileformat.DefaultExtension fileformat.MP3)
    then pair_of_result (parseMP3Sink data)
    else (None, Some (ErrUnsupportedFormat ext)) in
  let ext := match err with Some _ => "" | None => ext end in
  (fn, ext, err).

#[global] Instance Encode_ConvertForm : input.ConvertForm Encode :=
  {| input.InputMaxSize := InputMaxSize;
     input.FileKey := fun _ => FileKey;
     input.ParseSink := ParseSink |}.
End Sinks.

End form.

(* ===================================================================== *)
(** * Package controller (the Convert handler) *)
(* ===================================================================== *)

Module http.
Inductive Method : Type := MethodGet | MethodPost | MethodOther.
Definition StatusBadRequest : Z := 400.
Definition StatusMethodNotAllowed : Z := 405.
Definition StatusInternalServerError : Z := 500.
End http.

Module controller.

(** ** The outside world

    Every call the handler makes on the response writer, the request,
    the file system, the pipe or the logger is recorded as one [event],
    in program order. *)
Inductive event : Type :=
| EvWrite                                   (* w.Write(formData) *)
| EvError (err : error) (code : Z)          (* http.Error(w, err, code) *)
| EvWriteHeader (code : Z)                  (* w.WriteHeader(code) *)
| EvSetHeader (key value : string)          (* w.Header().Set(key, value) *)
| EvMaxBytesReader (maxSize : Z)            (* r.Body = http.MaxBytesReader(..) *)
| EvParseMultipartForm (maxSize : Z)        (* r.ParseMultipartForm(maxSize) *)
| EvFormFile (key : string)                 (* r.FormFile(key) *)
| EvTempFile (dir : string)                 (* ioutil.TempFile(dir, "") *)
| EvPipeNew (bufferSize : Z) (pump : pipe.Pump) (sink : pipe.Sink)
| EvPipeRun                                 (* pipe.Wait(convert.Run()) *)
| EvSeek (name : string)                    (* tempFile.Seek(0, 0) *)
| EvStat (name : string)                    (* tempFile.Stat() *)
| EvCopy (name : string)                    (* io.Copy(w, tempFile) *)
| EvClose (f : stream)                      (* f.Close() *)
| EvRemove (name : string)                  (* os.Remove(f.Name()) *)
| EvLog (msg : string)                      (* log.Printf(msg) *)
| EvPanic.                                  (* call of a nil closure *)

(** What the request carries and what the world answers to each call. *)
Record World : Type :=
  { Method : http.Method;
    URLPath : string;
    BodySize : Z;                           (* bytes in the request body *)
    Form : result url.Values;               (* the parsed multipart body *)
    FormFile : string -> result string;     (* handler.Filename of the key *)
    WriteErr : option error;
    TempFileResult : result string;         (* name of the created file *)
    PipeNewErr : option error;
    PipeRunErr : option error;
    SeekErr : option error;
    StatResult : result Z;                  (* stat.Size() *)
    CopyErr : option error;
    CloseErr : option error;                (* tempFile.Close() *)
    RemoveErr : option error;               (* os.Remove *)
    TypeByExtension : string -> string }.   (* mime.TypeByExtension *)

(** [r.ParseMultipartForm] reads the body through the reader
    [http.MaxBytesReader(w, r.Body, maxSize)] installed just before: a
    hard ceiling, a negative limit counting as 0.  Reading past it fails
    with "http: request body too large"; no limit value switches the
    ceiling off. *)
Definition ParseMultipartForm (w : World) (maxSize : Z) : result url.Values :=
  if (Z.max 0 maxSize <? BodySize w)%Z then Err ErrBodyTooLarge else Form w.

(** ** The handler monad

    The state is the trace so far and the stack of deferred calls, last
    deferred first.  A computation yields [None] once the handler has
    executed [return] (or panicked): what follows it is skipped. *)
Inductive deferred : Type :=
| DeferClose (f : stream)                   (* defer f.Close() *)
| DeferCleanUp (name : string).             (* defer cleanUp(tempFile) *)

Record state : Type :=
  { trace : list event;
    defers : list deferred }.

Definition handler (A : Type) : Type := state -> option A * state.

Definition ret {A} (a : A) : handler A := fun st => (Some a, st).

Definition bind {A B} (m : handler A) (k : A -> handler B) : handler B :=
  fun st =>
    match m st with
    | (Some a, st') => k a st'
    | (None, st') => (None, st')
    end.

Definition emit (e : event) : handler unit :=
  fun st => (Some tt, {| trace := trace st ++ [e]; defers := defers st |}).

Definition defer (d : deferred) : handler unit :=
  fun st => (Some tt, {| trace := trace st; defers := d :: defers st |}).

Definition return_ {A} : handler A := fun st => (None, st).

Declare Scope handler_scope.
Delimit Scope handler_scope with handler.
Notation "x <- m ;; k" := (bind m (fun x => k))
  (at level 100, m at next level, right associativity) : handler_scope.
Notation "m ;; k" := (bind m (fun _ => k))
  (at level 100, right associativity) : handler_scope.
Local Open Scope handler_scope.

(** [http.Error(w, err.Error(), code)] *)
Definition Error (err : error) (code : Z) : handler unit :=
  emit (EvError err code).

(** [convert] using the pump as the source and the sink as destination. *)
Definition convert (w : World) (bufferSize : Z) (pump : pipe.Pump)
    (sink : pipe.Sink) : handler (option error) :=
  (* build convert pipe *)
  emit (EvPipeNew bufferSize pump sink) ;;
  match PipeNewErr w with
  | Some err => ret (Some (ErrBuildPipe err))
  | None =>
      (* run conversion *)
      emit EvPipeRun ;;
      match PipeRunErr w with
      | Some err => ret (Some (ErrExecutePipe err))
      | None => ret None
      end
  end.

(** [outFileName] returns the output file name. *)
Definition outFileName (prefix : string) (idx : Z) (ext : string) : string :=
  prefix ++ "_" ++ strconv.FormatInt idx ++ ext.

(** [cleanUp] removes the temporary file and handles all errors on the
    way: each failure is logged, nothing is returned. *)
Definition cleanUp (w : World) (name : string) : handler unit :=
  emit (EvClose (TempFile name)) ;;
  match CloseErr w with
  | Some _ => emit (EvLog "Failed to close temp file")
  | None => ret tt
  end ;;
  emit (EvRemove name) ;;
  match RemoveErr w with
  | Some _ => emit (EvLog "Failed to delete temp file")
  | None => ret tt
  end.

Section Convert.
Context {F : Type} `{input.ConvertForm F}.
(** [input.FilePump(fileName, f)] resolves the pump of the uploaded
    file; the handler only needs its result. *)
Variable FilePump : string -> stream -> result pipe.Pump.

(** The POST branch of [Convert]. *)
Definition post (form : F) (bufferSize : Z) (tempDir : string)
    (w : World) : handler unit :=
  (* get max size for the format *)
  data <- match input.InputMaxSize form (URLPath w) with
          | Ok maxSize =>
              emit (EvMaxBytesReader maxSize) ;;
              (* check max size *)
              emit (EvParseMultipartForm maxSize) ;;
              match ParseMultipartForm w maxSize with
              | Err err => Error err http.StatusBadRequest ;; return_
              | Ok data => ret data
              end
          | Err err => Error err http.StatusBadRequest ;; return_
          end ;;
  emit (EvFormFile (input.FileKey form)) ;;
  match FormFile w (input.FileKey form) with
  | Err err => Error err http.StatusBadRequest ;; return_
  | Ok fileName =>
      let f := Upload fileName in
      defer (DeferClose f) ;;
      (* parse pump *)
      match FilePump fileName f with
      | Err err => Error err http.StatusBadRequest ;; return_
      | Ok pump =>
          (* parse sink and validate parameters *)
          let '(buildFn, ext, err) := input.ParseSink form data in
          match err with
          | Some err => Error err http.StatusBadRequest ;; return_
          | None =>
              (* create temp file *)
              emit (EvTempFile tempDir) ;;
              match TempFileResult w with
              | Err err =>
                  Error err http.StatusInternalServerError ;; return_
              | Ok tempFile =>
                  defer (DeferCleanUp tempFile) ;;
                  (* convert file using temp file *)
                  sink <- match buildFn with
                          | Some fn => ret (fn (TempFile tempFile))
                          | None => emit EvPanic ;; return_
                          end ;;
                  err <- convert w bufferSize pump sink ;;
                  match err with
                  | Some err => Error err http.StatusBadRequest ;; return_
                  | None =>
                      (* reset temp file *)
                      emit (EvSeek tempFile) ;;
                      match SeekErr w with
                      | Some err =>
                          Error (ErrResetTemp err)
                                http.StatusInternalServerError ;; return_
                      | None =>
                          (* get temp file stats for headers *)
                          emit (EvStat tempFile) ;;
                          match StatResult w with
                          | Err err =>
                              Error (ErrFileStats err)
                                    http.StatusInternalServerError ;;
                              return_
                          | Ok size =>
                              let fileSize := strconv.FormatInt size in
                              (* send the headers *)
                              emit (EvSetHeader "Content-Disposition"
                                      ("attachment; filename="
                                       ++ outFileName "result" 1 ext)) ;;
                              emit (EvSetHeader "Content-Type"
                                      (TypeByExtension w ext)) ;;
                              emit (EvSetHeader "Content-Length" fileSize) ;;
                              (* send file to a client *)
                              emit (EvCopy tempFile) ;;
                              match CopyErr w with
                              | Some err =>
                                  Error (ErrTransfer err)
                                        http.StatusInternalServerError
                              | None => ret tt
                              end ;;
                              return_
                          end
                      end
                  end
              end
          end
      end
  end.

(** The body of the handler [Convert] returns. *)
Definition ConvertBody (form : F) (bufferSize : Z) (tempDir : string)
    (w : World) : handler unit :=
  match Method w with
  | http.MethodGet =>
      emit EvWrite ;;
      match WriteErr w with
      | Some err => Error err http.StatusInternalServerError
      | None => ret tt
      end
  | http.MethodPost => post form bufferSize tempDir w
  | http.MethodOther => emit (EvWriteHeader http.StatusMethodNotAllowed)
  end.

(** Deferred calls run when the function returns, last deferred first. *)
Definition run_deferred (w : World) (d : deferred) : handler unit :=
  match d with
  | DeferClose f => emit (EvClose f)
  | DeferCleanUp name => cleanUp w name
  end.

Fixpoint run_defers (w : World) (ds : list deferred) (tr : list event)
    : list event :=
  match ds with
  | [] => tr
  | d :: rest =>
      run_defers w rest
        (trace (snd (run_deferred w d {| trace := tr; defers := [] |})))
  end.

(** [Convert]: one request served, as the trace of everything the
    handler did, deferred calls included. *)
Definition Convert (form : F) (bufferSize : Z) (tempDir : string)
    (w : World) : list event :=
  let st := snd (ConvertBody form bufferSize tempDir w
                   {| trace := []; defers := [] |}) in
  run_defers w (defers st) (trace st).
End Convert.

End controller.

(* ===================================================================== *)
(** * Package cmd (encode_mp3.go) *)
(* ===================================================================== *)

Module cmd.
(** The channel modes as the help text of the [channelmode] flag numbers
    them: "0 - mono, 1 - stereo, 2 - joint stereo". *)
Definition channel_modes : mp3.Modes :=
  {| mp3.Mono := 0; mp3.Stereo := 1; mp3.JointStereo := 2 |}.

(** The defaults of the flags of [encode mp3]; [useQuality] is false
    unless the [quality] flag was given. *)
Definition default_channelMode : Z := 2.
Definition default_bitRateMode : string := "vbr".
Definition default_bitRate : Z := 4.
Definition default_quality : Z := 5.
End cmd.

(* ===================================================================== *)
(** * Vocabulary of the properties *)
(* ===================================================================== *)

(** The parameter a builder error blames. *)
Inductive reason : Type :=
| BadChannelMode
| BadBitRateMode
| BadRate
| BadQuality
| BadBitDepth
| OtherReason.

Definition reason_of (e : error) : reason :=
  match e with
  | ErrChannelMode _ => BadChannelMode
  | ErrVBRMode _ | ErrBitRateMode _ => BadBitRateMode
  | ErrVBRQuality _ | ErrBitRate _ _ _ => BadRate
  | ErrMP3Quality _ => BadQuality
  | ErrBitDepth _ => BadBitDepth
  | _ => OtherReason
  end.

(** The decision of a builder: accepted, or rejected for a reason. *)
Definition decision {A} (r : result A) : option reason :=
  match r with
  | Ok _ => None
  | Err e => Some (reason_of e)
  end.

(** The range a numeric rate must lie in, by resolved bit-rate mode:
    [0,9] in variable-rate mode, [minBitRate, maxBitRate] = [8, 320] in
    constant and average mode; no range for any other mode. *)
Definition rate_in_range (mode : string) (rate : Z) : Prop :=
  (mode = "VBR" /\ 0 <= rate <= 9)
  \/ ((mode = "CBR" \/ mode = "ABR") /\ 8 <= rate <= 320).

(** Two resolutions of an input format agree: both fail, or both build
    the same pump. *)
Definition same_pump (a b : result file.BuildPumpFunc) : Prop :=
  match a, b with
  | Ok f, Ok g => forall rs, f rs = g rs
  | Err _, Err _ => True
  | _, _ => False
  end.

(** The error of an output format that is not offered. *)
Definition unsupported_format (e : option error) : bool :=
  match e with Some (ErrUnsupportedFormat _) => true | _ => false end.

(** The bit-rate mode an accepted mode string and rate stand for. *)
Definition bit_rate_mode (mode : string) (rate : Z) (brm : mp3.BitRateMode) : Prop :=
  (mode = "VBR" /\ brm = mp3.VBR rate)
  \/ (mode = "CBR" /\ brm = mp3.CBR rate)
  \/ (mode = "ABR" /\ brm = mp3.ABR rate).

(** The bytes an extension is made of after its dot: no dot, no slash. *)
Definition plain (e : list ascii) : bool :=
  forallb (fun c => negb (Ascii.eqb c "/") && negb (Ascii.eqb c ".")) e.

Module trace.
Import controller.

(** The output resource is acquired by [ioutil.TempFile]. *)
Definition acquires (e : event) : bool :=
  match e with EvTempFile _ => true | _ => false end.

(** The two steps of the release: the temp file closed, then removed. *)
Definition closes (e : event) : bool :=
  match e with EvClose (TempFile _) => true | _ => false end.

Definition removes (e : event) : bool :=
  match e with EvRemove _ => true | _ => false end.

Definition logs (e : event) : bool :=
  match e with EvLog _ => true | _ => false end.

(** The log line [msg]. *)
Definition logged (msg : string) (e : event) : bool :=
  match e with EvLog m => String.eqb m msg | _ => false end.

(** What reaches the caller: everything done on the response writer. *)
Definition responds (e : event) : bool :=
  match e with
  | EvWrite | EvError _ _ | EvWriteHeader _ | EvSetHeader _ _ | EvCopy _ => true
  | _ => false
  end.

Definition fails (e : event) : bool :=
  match e with EvError _ _ => true | _ => false end.

Definition count (p : event -> bool) (tr : list event) : nat :=
  length (List.filter p tr).

Definition response (tr : list event) : list event :=
  List.filter responds tr.

Definition without_logs (tr : list event) : list event :=
  List.filter (fun e => negb (logs e)) tr.

(** The same world, with other answers to the two calls of [cleanUp]. *)
Definition with_release (w : World) (closeErr removeErr : option error) : World :=
  {| Method := Method w; URLPath := URLPath w; BodySize := BodySize w;
     Form := Form w; FormFile := FormFile w; WriteErr := WriteErr w;
     TempFileResult := TempFileResult w; PipeNewErr := PipeNewErr w;
     PipeRunErr := PipeRunErr w; SeekErr := SeekErr w;
     StatResult := StatResult w; CopyErr := CopyErr w;
     CloseErr := closeErr; RemoveErr := removeErr;
     TypeByExtension := TypeByExtension w |}.

(** The uploaded file closed ([defer f.Close()]). *)
Definition closes_upload (e : event) : bool :=
  match e with EvClose (Upload _) => true | _ => false end.

(** The uploaded file opened ([r.FormFile]). *)
Definition asks_file (e : event) : bool :=
  match e with EvFormFile _ => true | _ => false end.

Definition panics (e : event) : bool :=
  match e with EvPanic => true | _ => false end.

Definition sets_header (e : event) : bool :=
  match e with EvSetHeader _ _ => true | _ => false end.

Definition runs_pipe (e : event) : bool :=
  match e with EvPipeRun => true | _ => false end.

(** The temp file read back for delivery: seek, stat, copy. *)
Definition reads_back (e : event) : bool :=
  match e with EvSeek _ | EvStat _ | EvCopy _ => true | _ => false end.

(** Any use of the temp file between its creation and its release. *)
Definition uses_temp (e : event) : bool :=
  match e with
  | EvPipeNew _ _ _ | EvPipeRun | EvSeek _ | EvStat _ | EvCopy _ => true
  | _ => false
  end.

(** The status of an error answer is 400 or 500. *)
Definition client_or_server_error (e : event) : bool :=
  match e with
  | EvError _ code => (code =? 400)%Z || (code =? 500)%Z
  | _ => true
  end.

(** What comes before, and what comes after, the first event that
    satisfies [p]. *)
Fixpoint before (p : event -> bool) (tr : list event) : list event :=
  match tr with
  | [] => []
  | e :: rest => if p e then [] else e :: before p rest
  end.

Fixpoint after (p : event -> bool) (tr : list event) : list event :=
  match tr with
  | [] => []
  | e :: rest => if p e then rest else after p rest
  end.

Definition none (p : event -> bool) (tr : list event) : bool :=
  forallb (fun e => negb (p e)) tr.
End trace.

(* ===================================================================== *)
(** * Concrete requests *)
(* ===================================================================== *)

Module scenario.

(** The pump of an uploaded file, resolved by package [file]. *)
Definition FilePump (fileName : string) (f : stream) : result pipe.Pump :=
  match @file.Pump cmd.channel_modes fileName with
  | Ok build => Ok (build f)
  | Err err => Err err
  end.

(** The service as [encode http] starts it: [form.Encode{}], no limit
    configured. *)
Definition no_limits : form.Encode :=
  {| form.WavMaxSize := 0; form.Mp3MaxSize := 0; form.FlacMaxSize := 0 |}.

Definition limits_1MB : form.Encode :=
  {| form.WavMaxSize := 1048576; form.Mp3MaxSize := 1048576;
     form.FlacMaxSize := 1048576 |}.

(** mp3, constant bit rate, the bit rate missing. *)
Definition cbr_without_rate : url.Values :=
  <["format" := [".mp3"]]> (<["mp3-channel-mode" := ["2"]]>
    (<["mp3-bit-rate-mode" := ["CBR"]]> ∅)).

(** mp3, variable bit rate of quality 4. *)
Definition vbr_quality_4 : url.Values :=
  <["format" := [".mp3"]]> (<["mp3-channel-mode" := ["2"]]>
    (<["mp3-bit-rate-mode" := ["VBR"]]> (<["mp3-vbr-quality" := ["4"]]> ∅))).

(** The same, with the quality override switched on at 7. *)
Definition vbr_with_quality_7 : url.Values :=
  <["mp3-use-quality" := ["true"]]> (<["mp3-quality" := ["7"]]> vbr_quality_4).

(** wav at bit depth 11. *)
Definition wav_depth_11 : url.Values :=
  <["format" := [".wav"]]> (<["wav-bit-depth" := ["11"]]> ∅).

(** A POST of "track.wav" ([size] bytes) to "/.wav", in a world where
    every call succeeds but the pipe run, which answers [pipeRunErr]. *)
Definition world (size : Z) (data : url.Values) (pipeRunErr : option error)
    : controller.World :=
  {| controller.Method := http.MethodPost;
     controller.URLPath := "/.wav";
     controller.BodySize := size;
     controller.Form := Ok data;
     controller.FormFile := fun _ => Ok "track.wav";
     controller.WriteErr := None;
     controller.TempFileResult := Ok "/tmp/phono/001";
     controller.PipeNewErr := None;
     controller.PipeRunErr := pipeRunErr;
     controller.SeekErr := None;
     controller.StatResult := Ok 4242;
     controller.CopyErr := None;
     controller.CloseErr := None;
     controller.RemoveErr := None;
     controller.TypeByExtension := fun _ => "audio/mpeg" |}.

End scenario.

(* ===================================================================== *)
(** * Properties *)
(* ===================================================================== *)

(** ** Strings *)

Lemma String_eqb_true (a b : string) : String.eqb a b = true -> a = b.
Proof. apply String.eqb_eq. Qed.

(** ** Output format resolution returns an extension only on success *)

(** C10: for every form input, [Encode.ParseSink] returns a non-empty
    extension if and only if it returns a nil error; on any failure
    (unsupported output format or any parameter validation error) the
    returned extension is the empty string. *)
Theorem ParseSink_ext_nonempty_iff_nil_error `{mp3.Modes}
    (c : form.Encode) (data : url.Values) :
  let '(_, ext, err) := form.ParseSink c data in
  (ext <> "" <-> err = None) /\ (err <> None -> ext = "").
Proof.
  unfold form.ParseSink.
  destruct (String.eqb _ (fileformat.DefaultExtension fileformat.WAV)) eqn:Hwav.
  - apply String_eqb_true in Hwav. rewrite Hwav.
    destruct (form.parseWAVSink data); cbn; split; try split;
      congruence || discriminate || tauto.
  - destruct (String.eqb _ (fileformat.DefaultExtension fileformat.MP3)) eqn:Hmp3.
    + apply String_eqb_true in Hmp3. rewrite Hmp3.
      destruct (form.parseMP3Sink data); cbn; split; try split;
        congruence || discriminate || tauto.
    + cbn. split; try split; congruence || discriminate || tauto.
Qed.

(** ** The handler *)

(** Unfold the handler monad on a branch whose oracle answers are known. *)
Ltac step_handler_once :=
  cbv [controller.Convert controller.ConvertBody controller.post
       controller.convert controller.cleanUp controller.run_deferred
       controller.Error controller.bind controller.ret controller.emit
       controller.defer controller.return_ controller.ParseMultipartForm];
  cbn [controller.trace controller.defers controller.run_defers
       controller.run_deferred fst snd app].

Ltac step_handler := repeat progress step_handler_once.

(** Point at a member of a concrete trace. *)
Ltac find_in := cbn [In]; repeat (first [left; reflexivity | right]).

Ltac case_oracle t := let E := fresh "E" in destruct t eqn:E; step_handler.

(** Split on every answer the world can give on the way through POST. *)
Ltac all_paths w :=
  repeat match goal with
  | |- context [match controller.PipeNewErr w with _ => _ end] =>
      case_oracle (controller.PipeNewErr w)
  | |- context [match controller.PipeRunErr w with _ => _ end] =>
      case_oracle (controller.PipeRunErr w)
  | |- context [match controller.SeekErr w with _ => _ end] =>
      case_oracle (controller.SeekErr w)
  | |- context [match controller.StatResult w with _ => _ end] =>
      case_oracle (controller.StatResult w)
  | |- context [match controller.CopyErr w with _ => _ end] =>
      case_oracle (controller.CopyErr w)
  | |- context [match controller.CloseErr w with _ => _ end] =>
      case_oracle (controller.CloseErr w)
  | |- context [match controller.RemoveErr w with _ => _ end] =>
      case_oracle (controller.RemoveErr w)
  end.

(** One path of the handler, as to what its release logs. *)
Ltac released :=
  first [ reflexivity
        | now auto
        | intros name Hname Hacquired;
          first [ discriminate Hname
                | now destruct Hacquired
                | repeat split; reflexivity ]
        | intros Hclosed; first [reflexivity | discriminate Hclosed] ].

Section Handler.
Context {F : Type} `{input.ConvertForm F}.
Variable FilePump : string -> stream -> result pipe.Pump.
Variables (form : F) (bufferSize : Z) (tempDir : string).

Local Abbreviation Convert := (controller.Convert FilePump form bufferSize tempDir).

Lemma rejected_acquires_nothing (w : controller.World) :
  (forall data, controller.Form w = Ok data ->
                snd (input.ParseSink form data) <> None) ->
  trace.count trace.acquires (Convert w) = 0%nat.
Proof.
  intros Hrej. step_handler.
  case_oracle (controller.Method w).
  - case_oracle (controller.WriteErr w); reflexivity.
  - destruct (input.InputMaxSize form (controller.URLPath w)) as [maxSize|];
      step_handler; [|reflexivity].
    case_oracle (Z.max 0 maxSize <? controller.BodySize w)%Z; [reflexivity|].
    destruct (controller.Form w) as [data|]; step_handler; [|reflexivity].
    destruct (controller.FormFile w (input.FileKey form)) as [fileName|];
      step_handler; [|reflexivity].
    case_oracle (FilePump fileName (Upload fileName)); [|reflexivity].
    specialize (Hrej data eq_refl).
    destruct (input.ParseSink form data) as [[fn ext] [err|]]; step_handler.
    + reflexivity.
    + now destruct Hrej.
  - reflexivity.
Qed.

(** The temporary file is created only once the sink parameters have
    been validated. *)
Lemma acquire_only_after_validation (w : controller.World) :
  trace.count trace.acquires (Convert w) <> 0%nat ->
  exists data fn ext,
    controller.Form w = Ok data /\ input.ParseSink form data = (fn, ext, None).
Proof.
  intros Hacq.
  destruct (controller.Form w) as [data|e] eqn:Eform.
  - destruct (input.ParseSink form data) as [[fn ext] [err|]] eqn:Eparse.
    + exfalso. apply Hacq. apply rejected_acquires_nothing.
      intros data' Hdata'. rewrite Eform in Hdata'.
      injection Hdata' as <-. now rewrite Eparse.
    + now exists data, fn, ext.
  - exfalso. apply Hacq. apply rejected_acquires_nothing.
    intros data' Hdata'. rewrite Eform in Hdata'. discriminate.
Qed.

(** C1: for every conversion request whose output parameters are
    rejected by validation ([ParseSink] returns an error), no output
    resource is ever acquired: the temporary output file is created only
    after parameter validation has succeeded, so the trace of a rejected
    request holds no [ioutil.TempFile] call, and no release either. *)
Theorem rejected_request_acquires_no_resource
    (w : controller.World) (data : url.Values)
    (fn : option input.BuildFunc) (ext : string) (err : error) :
  controller.Form w = Ok data ->
  input.ParseSink form data = (fn, ext, Some err) ->
  trace.count trace.acquires (Convert w) = 0%nat.
Proof.
  intros Hform Hparse. apply rejected_acquires_nothing.
  intros data' Hdata'. rewrite Hform in Hdata'. injection Hdata' as <-.
  now rewrite Hparse.
Qed.

(** C2: for every conversion job in which the temporary output resource
    was acquired, the release step (close and remove the temp file) runs
    exactly once, whatever the terminal path: successful delivery,
    pipeline failure, or any failure while finalizing. *)
Theorem acquired_resource_released_exactly_once
    (w : controller.World) (name : string) :
  controller.TempFileResult w = Ok name ->
  trace.count trace.acquires (Convert w) <> 0%nat ->
  trace.count trace.closes (Convert w) = 1%nat
  /\ trace.count trace.removes (Convert w) = 1%nat
  /\ In (controller.EvClose (TempFile name)) (Convert w)
  /\ In (controller.EvRemove name) (Convert w).
Proof.
  intros Htemp. step_handler.
  case_oracle (controller.Method w).
  - case_oracle (controller.WriteErr w); intros Hacq; now destruct Hacq.
  - destruct (input.InputMaxSize form (controller.URLPath w)) as [maxSize|];
      step_handler; [|intros Hacq; now destruct Hacq].
    case_oracle (Z.max 0 maxSize <? controller.BodySize w)%Z;
      [intros Hacq; now destruct Hacq|].
    destruct (controller.Form w) as [data|]; step_handler;
      [|intros Hacq; now destruct Hacq].
    destruct (controller.FormFile w (input.FileKey form)) as [fileName|];
      step_handler; [|intros Hacq; now destruct Hacq].
    case_oracle (FilePump fileName (Upload fileName));
      [|intros Hacq; now destruct Hacq].
    destruct (input.ParseSink form data) as [[fn ext] [err|]]; step_handler;
      [intros Hacq; now destruct Hacq|].
    rewrite Htemp. step_handler. intros _.
    destruct fn as [fn|]; step_handler; all_paths w;
      (split; [reflexivity|]); (split; [reflexivity|]); split; find_in.
  - intros Hacq; now destruct Hacq.
Qed.

(** C8: a failure while releasing the output resource (closing or
    removing the temporary file) is logged only.  Whatever the two calls
    of [cleanUp] answer, the handler does the same things, log lines
    apart; in particular the caller receives the same response, so the
    release never turns a delivered success into an error.  And each
    failure is logged: once the temp file is acquired, a failing Close
    leaves exactly one line "Failed to close temp file", a failing Remove
    exactly one line "Failed to delete temp file", and nothing else is
    logged; a request whose temp file is never closed logs nothing. *)
Theorem release_failure_is_logged_only
    (w : controller.World) (closeErr removeErr : option error) :
  trace.without_logs (Convert (trace.with_release w closeErr removeErr))
    = trace.without_logs (Convert w)
  /\ trace.response (Convert (trace.with_release w closeErr removeErr))
     = trace.response (Convert w)
  /\ trace.count trace.fails (Convert (trace.with_release w closeErr removeErr))
     = trace.count trace.fails (Convert w)
  /\ (forall name,
        controller.TempFileResult w = Ok name ->
        trace.count trace.acquires (Convert w) <> 0%nat ->
        trace.count (trace.logged "Failed to close temp file")
          (Convert (trace.with_release w closeErr removeErr))
        = match closeErr with Some _ => 1%nat | None => 0%nat end
        /\ trace.count (trace.logged "Failed to delete temp file")
             (Convert (trace.with_release w closeErr removeErr))
           = match removeErr with Some _ => 1%nat | None => 0%nat end
        /\ trace.count trace.logs
             (Convert (trace.with_release w closeErr removeErr))
           = (match closeErr with Some _ => 1 | None => 0 end
              + match removeErr with Some _ => 1 | None => 0 end)%nat)
  /\ (trace.count trace.closes
        (Convert (trace.with_release w closeErr removeErr)) = 0%nat ->
      trace.count trace.logs
        (Convert (trace.with_release w closeErr removeErr)) = 0%nat).
Proof.
  assert (Hcase : forall P Q R S T : Prop, P -> Q -> R -> S -> T ->
            P /\ Q /\ R /\ S /\ T) by tauto.
  step_handler. cbn [trace.with_release controller.Method controller.URLPath
    controller.BodySize controller.Form controller.FormFile
    controller.WriteErr controller.TempFileResult controller.PipeNewErr
    controller.PipeRunErr controller.SeekErr controller.StatResult
    controller.CopyErr controller.CloseErr controller.RemoveErr
    controller.TypeByExtension].
  case_oracle (controller.Method w); [|
    destruct (input.InputMaxSize form (controller.URLPath w)) as [maxSize|];
    step_handler |]; try (apply Hcase; released).
  - case_oracle (controller.WriteErr w); apply Hcase; released.
  - case_oracle (Z.max 0 maxSize <? controller.BodySize w)%Z;
      [apply Hcase; released|].
    destruct (controller.Form w) as [data|]; step_handler;
      [|apply Hcase; released].
    destruct (controller.FormFile w (input.FileKey form)) as [fileName|];
      step_handler; [|apply Hcase; released].
    case_oracle (FilePump fileName (Upload fileName));
      [|apply Hcase; released].
    destruct (input.ParseSink form data) as [[fn ext] [err|]]; step_handler;
      [apply Hcase; released|].
    destruct (controller.TempFileResult w) as [name|]; step_handler;
      [|apply Hcase; released].
    destruct fn as [fn|]; step_handler; all_paths w;
      destruct closeErr, removeErr; step_handler; apply Hcase; released.
Qed.
End Handler.

(** ** Format resolution *)

Section LowerCase.
Import strings.

Lemma lower_byte_idem (c : ascii) : lower_byte (lower_byte c) = lower_byte c.
Proof. destruct c as [[] [] [] [] [] [] [] []]; reflexivity. Qed.

Lemma lower_byte_slash (c : ascii) :
  Ascii.eqb (lower_byte c) "/" = Ascii.eqb c "/".
Proof. destruct c as [[] [] [] [] [] [] [] []]; reflexivity. Qed.

Lemma lower_byte_dot (c : ascii) :
  Ascii.eqb (lower_byte c) "." = Ascii.eqb c ".".
Proof. destruct c as [[] [] [] [] [] [] [] []]; reflexivity. Qed.

Lemma ToLower_idem (s : string) : ToLower (ToLower s) = ToLower s.
Proof.
  induction s as [|c s IH]; cbn; [reflexivity|].
  now rewrite lower_byte_idem, IH.
Qed.

Lemma ToLower_bytes (s : string) :
  list_ascii_of_string (ToLower s) = map lower_byte (list_ascii_of_string s).
Proof. induction s as [|c s IH]; cbn; [reflexivity|]. now rewrite IH. Qed.

Lemma ToLower_of_bytes (l : list ascii) :
  ToLower (string_of_list_ascii l) = string_of_list_ascii (map lower_byte l).
Proof. induction l as [|c l IH]; cbn; [reflexivity|]. now rewrite IH. Qed.

Lemma ext_loop_lower (rest seen : list ascii) :
  filepath.ext_loop (map lower_byte rest) (map lower_byte seen)
  = map lower_byte (filepath.ext_loop rest seen).
Proof.
  revert seen. induction rest as [|c rest IH]; intros seen; cbn; [reflexivity|].
  rewrite lower_byte_slash, lower_byte_dot.
  destruct (Ascii.eqb c "/"); [reflexivity|].
  destruct (Ascii.eqb c "."); [reflexivity|].
  apply (IH (c :: seen)).
Qed.

(** Lower-casing commutes with taking the extension. *)
Lemma Ext_ToLower (p : string) :
  ToLower (filepath.Ext p) = filepath.Ext (ToLower p).
Proof.
  unfold filepath.Ext.
  rewrite ToLower_of_bytes, ToLower_bytes, <- map_rev.
  now rewrite <- (ext_loop_lower _ []).
Qed.
End LowerCase.

(** [url.Get] only looks at its own key. *)
Lemma Get_insert_ne (data : url.Values) (k k' : string) (v : list string) :
  k <> k' -> url.Get (<[k := v]> data) k' = url.Get data k'.
Proof. intros Hne. unfold url.Get. now rewrite lookup_insert_ne. Qed.

Lemma Get_insert_eq (data : url.Values) (k v : string) :
  url.Get (<[k := [v]]> data) k = v.
Proof. unfold url.Get. now rewrite lookup_insert_eq. Qed.

Section Resolution.
Context `{mp3.Modes}.

(** [file.Pump] looks at the file name through its lower-cased
    extension only. *)
Lemma Pump_by_extension (n1 n2 : string) :
  strings.ToLower (filepath.Ext n1) = strings.ToLower (filepath.Ext n2) ->
  same_pump (file.Pump n1) (file.Pump n2).
Proof.
  intros Hext. unfold file.Pump. rewrite Hext.
  repeat (destruct (file.hasExtension _ _); [now cbn|]). now cbn.
Qed.

Lemma parseWAVSink_format (data : url.Values) (v : list string) :
  form.parseWAVSink (<["format" := v]> data) = form.parseWAVSink data.
Proof.
  unfold form.parseWAVSink, form.parseIntValue.
  now rewrite Get_insert_ne.
Qed.

Lemma parseMP3Sink_format (data : url.Values) (v : list string) :
  form.parseMP3Sink (<["format" := v]> data) = form.parseMP3Sink data.
Proof.
  unfold form.parseMP3Sink, form.parseIntValue, form.parseBoolValue.
  now rewrite !Get_insert_ne.
Qed.

End Resolution.

(** ** The sink builders *)

Lemma is_ok_decision {A} (r : result A) : is_ok r = true <-> decision r = None.
Proof. destruct r; cbn; split; congruence. Qed.

(** Case analysis on the comparisons of a builder. *)
Ltac split_ltb :=
  repeat match goal with
  | |- context [(?a <? ?b)%Z] => destruct (Z.ltb_spec a b); cbn
  end.

Section Builders.
Context `{mp3.Modes}.

Lemma input_Build_accepts (mode : string) (rate cm : Z) (uq : bool) (q : Z) :
  is_ok (input.mp3Format.Build input.Mp3 mode rate cm uq q) = true <->
  cm ∈ input.mp3Format.ChannelModes input.Mp3
  /\ rate_in_range mode rate
  /\ (uq = true -> 0 <= q <= 9).
Proof.
  unfold input.mp3Format.Build, input.mp3Format.bitRate, rate_in_range.
  cbn [input.Mp3 input.mp3Format.VBR input.mp3Format.CBR input.mp3Format.ABR
       input.mp3Format.MaxBitRate input.mp3Format.MinBitRate
       input.mp3Format.ChannelModes].
  destruct (decide _) as [Hcm|Hcm];
    [|split; [intros [=] | intros (Hin & _); contradiction]].
  destruct (String.eqb_spec mode "VBR") as [->|Hv];
    [|destruct (String.eqb_spec mode "CBR") as [->|Hc];
      [|destruct (String.eqb_spec mode "ABR") as [->|Ha]]];
    split_ltb; destruct uq; cbn; split_ltb;
    intuition (try discriminate; try congruence; try lia).
Qed.

(** The builder of package [file] decides on a mode as the builder of
    package [input] decides on its upper-casing. *)
Lemma file_BuildSink_decision (mode : string) (rate cm : Z) (uq : bool) (q : Z) :
  decision (file.mp3Format.BuildSink file.Mp3 mode rate cm uq q)
  = decision (input.mp3Format.Build input.Mp3 (strings.ToUpper mode) rate cm uq q).
Proof.
  unfold file.mp3Format.BuildSink, input.mp3Format.Build,
    file.mp3Format.bitRate, input.mp3Format.bitRate.
  cbn [input.Mp3 input.mp3Format.VBR input.mp3Format.CBR input.mp3Format.ABR
       input.mp3Format.MaxBitRate input.mp3Format.MinBitRate
       input.mp3Format.ChannelModes
       file.Mp3 file.mp3Format.VBR file.mp3Format.CBR file.mp3Format.ABR
       file.mp3Format.MaxBitRate file.mp3Format.MinBitRate
       file.mp3Format.ChannelModes].
  destruct (decide _); [|reflexivity].
  destruct (String.eqb (strings.ToUpper mode) "VBR");
    [|destruct (String.eqb (strings.ToUpper mode) "CBR");
      [|destruct (String.eqb (strings.ToUpper mode) "ABR")]];
    split_ltb; destruct uq; cbn; split_ltb; reflexivity.
Qed.

Lemma file_BuildSink_accepts (mode : string) (rate cm : Z) (uq : bool) (q : Z) :
  is_ok (file.mp3Format.BuildSink file.Mp3 mode rate cm uq q) = true <->
  cm ∈ file.mp3Format.ChannelModes file.Mp3
  /\ rate_in_range (strings.ToUpper mode) rate
  /\ (uq = true -> 0 <= q <= 9).
Proof.
  rewrite is_ok_decision, file_BuildSink_decision, <- is_ok_decision.
  apply input_Build_accepts.
Qed.

(** What an accepted tuple builds. *)
Lemma input_Build_sink (mode : string) (rate cm : Z) (uq : bool) (q : Z)
    (fn : input.BuildFunc) :
  input.mp3Format.Build input.Mp3 mode rate cm uq q = Ok fn ->
  exists brm, fn = input.mp3Format.sink brm cm uq q.
Proof.
  unfold input.mp3Format.Build.
  destruct (decide _); [|discriminate].
  match goal with |- context [match ?m with Ok _ => _ | Err _ => _ end] =>
    destruct m as [brm|]; [|discriminate] end.
  destruct uq; [destruct (_ || _); [discriminate|]|];
    intros [= <-]; now exists brm.
Qed.

Lemma file_BuildSink_sink (mode : string) (rate cm : Z) (uq : bool) (q : Z)
    (fn : file.BuildSinkFunc) :
  file.mp3Format.BuildSink file.Mp3 mode rate cm uq q = Ok fn ->
  exists brm, fn = file.mp3Format.sink brm cm uq q.
Proof.
  unfold file.mp3Format.BuildSink.
  destruct (decide _); [|discriminate].
  match goal with |- context [match ?m with Ok _ => _ | Err _ => _ end] =>
    destruct m as [brm|]; [|discriminate] end.
  destruct uq; [destruct (_ || _); [discriminate|]|];
    intros [= <-]; now exists brm.
Qed.

(** What [parseMP3Sink] has read when it succeeds. *)
Lemma parseMP3Sink_inv (data : url.Values) (fn : input.BuildFunc) :
  form.parseMP3Sink data = Ok fn ->
  exists cm rate uq q,
    form.parseBoolValue data "mp3-use-quality" "mp3 quality" = Ok uq
    /\ (if uq then form.parseIntValue data "mp3-quality" "mp3 quality" = Ok q
        else q = 0)
    /\ input.mp3Format.Build input.Mp3 (url.Get data "mp3-bit-rate-mode")
         rate cm uq q = Ok fn.
Proof.
  unfold form.parseMP3Sink.
  destruct (form.parseIntValue data "mp3-channel-mode" _) as [cm|]; [|discriminate].
  destruct (String.eqb (url.Get data "mp3-bit-rate-mode") ""); [discriminate|].
  match goal with |- context [match ?m with Ok _ => _ | Err _ => _ end] =>
    destruct m as [rate|]; [|discriminate] end.
  destruct (form.parseBoolValue data "mp3-use-quality" _) as [[|]|]; [| |discriminate].
  - destruct (form.parseIntValue data "mp3-quality" _) as [q|] eqn:Hq; [|discriminate].
    intros Hfn. now exists cm, rate, true, q.
  - intros Hfn. now exists cm, rate, false, 0.
Qed.
End Builders.


Section BuilderClaims.
Context `{mp3.Modes}.

(** C3: for every MP3 parameter tuple, the numeric rate is validated
    against a range selected by the previously-resolved bit-rate mode:
    [0,9] in variable-rate mode, [minBitRate, maxBitRate] = [8, 320] in
    constant and average mode; any other mode is rejected; and the mode is
    resolved before the numeric parameter that depends on it is validated.
    Package [input] resolves the mode string as it stands, package [file]
    after upper-casing it; the form reads the mode first and lets it
    choose the field the rate is read from. *)
Theorem mp3_rate_validated_against_mode_range :
  (forall mode rate cm uq q,
     is_ok (input.mp3Format.Build input.Mp3 mode rate cm uq q) = true <->
     cm ∈ input.mp3Format.ChannelModes input.Mp3
     /\ rate_in_range mode rate
     /\ (uq = true -> 0 <= q <= 9))
  /\ (forall mode rate cm uq q,
        is_ok (file.mp3Format.BuildSink file.Mp3 mode rate cm uq q) = true <->
        cm ∈ file.mp3Format.ChannelModes file.Mp3
        /\ rate_in_range (strings.ToUpper mode) rate
        /\ (uq = true -> 0 <= q <= 9))
  (* any other mode is rejected for the mode, whatever the rate *)
  /\ (forall mode rate cm uq q,
        cm ∈ input.mp3Format.ChannelModes input.Mp3 ->
        mode <> "VBR" -> mode <> "CBR" -> mode <> "ABR" ->
        input.mp3Format.Build input.Mp3 mode rate cm uq q
        = Err (ErrVBRMode mode))
  /\ (forall mode rate cm uq q,
        cm ∈ file.mp3Format.ChannelModes file.Mp3 ->
        strings.ToUpper mode <> "VBR" -> strings.ToUpper mode <> "CBR" ->
        strings.ToUpper mode <> "ABR" ->
        file.mp3Format.BuildSink file.Mp3 mode rate cm uq q
        = Err (ErrBitRateMode mode))
  (* the form resolves the mode before it reads any rate *)
  /\ (forall data cm,
        form.parseIntValue data "mp3-channel-mode" "channel mode" = Ok cm ->
        url.Get data "mp3-bit-rate-mode" = "" ->
        form.parseMP3Sink data = Err ErrNoBitRateMode)
  /\ (forall data cm,
        form.parseIntValue data "mp3-channel-mode" "channel mode" = Ok cm ->
        url.Get data "mp3-bit-rate-mode" = "VBR" ->
        url.Get data "mp3-vbr-quality" = "" ->
        form.parseMP3Sink data = Err (ErrNotProvided "vbr quality"))
  /\ (forall data cm,
        form.parseIntValue data "mp3-channel-mode" "channel mode" = Ok cm ->
        url.Get data "mp3-bit-rate-mode" = "CBR"
        \/ url.Get data "mp3-bit-rate-mode" = "ABR" ->
        url.Get data "mp3-bit-rate" = "" ->
        form.parseMP3Sink data = Err (ErrNotProvided "bit rate")).
Proof.
  split; [exact input_Build_accepts|].
  split; [exact file_BuildSink_accepts|].
  split; [|split; [|split; [|split]]].
  - intros mode rate cm uq q Hcm Hv Hc Ha. unfold input.mp3Format.Build.
    cbn [input.Mp3 input.mp3Format.ChannelModes] in *.
    destruct (decide _); [|contradiction]. cbn.
    destruct (String.eqb_spec mode "VBR"); [contradiction|].
    destruct (String.eqb_spec mode "CBR"); [contradiction|].
    destruct (String.eqb_spec mode "ABR"); [contradiction|]. reflexivity.
  - intros mode rate cm uq q Hcm Hv Hc Ha. unfold file.mp3Format.BuildSink.
    cbn [file.Mp3 file.mp3Format.ChannelModes] in *.
    destruct (decide _); [|contradiction]. cbn.
    destruct (String.eqb_spec (strings.ToUpper mode) "VBR"); [contradiction|].
    destruct (String.eqb_spec (strings.ToUpper mode) "CBR"); [contradiction|].
    destruct (String.eqb_spec (strings.ToUpper mode) "ABR"); [contradiction|].
    reflexivity.
  - intros data cm Hcm Hmode. unfold form.parseMP3Sink.
    now rewrite Hcm, Hmode.
  - intros data cm Hcm Hmode Hrate. unfold form.parseMP3Sink, form.parseIntValue in *.
    now rewrite Hcm, Hmode, Hrate.
  - intros data cm Hcm [Hmode|Hmode] Hrate;
      unfold form.parseMP3Sink, form.parseIntValue in *;
      now rewrite Hcm, Hmode, Hrate.
Qed.

(** C5: the MP3 quality override is gated by the boolean use-quality
    parameter.  If the gate is absent or false, the quality value is not
    required (its field is never read) and the built encoder configuration
    omits it; if the gate is true, the quality value is required and must
    lie in [0,9], otherwise validation fails. *)
Theorem mp3_quality_gated_by_use_quality :
  (* the form: gate absent or false *)
  (forall data,
     url.Get data "mp3-use-quality" = ""
     \/ strconv.ParseBool (url.Get data "mp3-use-quality") = Some false ->
     (forall v, form.parseMP3Sink (<["mp3-quality" := v]> data)
                = form.parseMP3Sink data)
     /\ (forall fn ws, form.parseMP3Sink data = Ok fn ->
           exists s, fn ws = pipe.Mp3Sink s /\ mp3.Quality s = None))
  (* the form: gate true *)
  /\ (forall data,
        strconv.ParseBool (url.Get data "mp3-use-quality") = Some true ->
        (url.Get data "mp3-quality" = "" ->
         is_ok (form.parseMP3Sink data) = false)
        /\ (forall fn ws, form.parseMP3Sink data = Ok fn ->
              exists q s,
                strconv.Atoi (url.Get data "mp3-quality") = Some q
                /\ 0 <= q <= 9
                /\ fn ws = pipe.Mp3Sink s /\ mp3.Quality s = Some q))
  (* the builder of package file *)
  /\ (forall mode rate cm q q',
        is_ok (file.mp3Format.BuildSink file.Mp3 mode rate cm false q)
        = is_ok (file.mp3Format.BuildSink file.Mp3 mode rate cm false q'))
  /\ (forall mode rate cm q fn ws,
        file.mp3Format.BuildSink file.Mp3 mode rate cm false q = Ok fn ->
        exists s, fn ws = pipe.Mp3Sink s /\ mp3.Quality s = None)
  /\ (forall mode rate cm q fn ws,
        file.mp3Format.BuildSink file.Mp3 mode rate cm true q = Ok fn ->
        0 <= q <= 9
        /\ exists s, fn ws = pipe.Mp3Sink s /\ mp3.Quality s = Some q).
Proof.
  split; [|split; [|split; [|split]]].
  - intros data Hgate.
    assert (Huq : form.parseBoolValue data "mp3-use-quality" "mp3 quality"
                  = Ok false).
    { unfold form.parseBoolValue. destruct Hgate as [-> | Hfalse]; [reflexivity|].
      rewrite Hfalse. now destruct (String.eqb _ ""). }
    split.
    + intros v. unfold form.parseMP3Sink.
      assert (Huq' : form.parseBoolValue (<["mp3-quality" := v]> data)
                       "mp3-use-quality" "mp3 quality" = Ok false).
      { unfold form.parseBoolValue in *. now rewrite Get_insert_ne. }
      rewrite Huq, Huq'. unfold form.parseIntValue.
      now rewrite !Get_insert_ne.
    + intros fn ws Hfn.
      destruct (parseMP3Sink_inv _ _ Hfn) as (cm & rate & uq & q & Huq' & Hq & Hb).
      rewrite Huq in Huq'. injection Huq' as <-.
      destruct (input_Build_sink _ _ _ _ _ _ Hb) as [brm ->].
      cbn. eauto.
  - intros data Hgate.
    assert (Hne : url.Get data "mp3-use-quality" <> "").
    { intros Heq. rewrite Heq in Hgate. discriminate. }
    assert (Huq : form.parseBoolValue data "mp3-use-quality" "mp3 quality"
                  = Ok true).
    { unfold form.parseBoolValue. rewrite Hgate.
      destruct (String.eqb_spec (url.Get data "mp3-use-quality") "");
        [contradiction|reflexivity]. }
    split.
    + intros Hmissing. unfold form.parseMP3Sink.
      destruct (form.parseIntValue data "mp3-channel-mode" _); [|reflexivity].
      destruct (String.eqb _ ""); [reflexivity|].
      match goal with |- context [match ?m with Ok _ => _ | Err _ => _ end] =>
        destruct m; [|reflexivity] end.
      rewrite Huq. unfold form.parseIntValue at 1. now rewrite Hmissing.
    + intros fn ws Hfn.
      destruct (parseMP3Sink_inv _ _ Hfn) as (cm & rate & uq & q & Huq' & Hq & Hb).
      rewrite Huq in Huq'. injection Huq' as <-.
      assert (Hok : is_ok (input.mp3Format.Build input.Mp3
                (url.Get data "mp3-bit-rate-mode") rate cm true q) = true)
        by now rewrite Hb.
      apply input_Build_accepts in Hok. destruct Hok as (_ & _ & Hrange).
      destruct (input_Build_sink _ _ _ _ _ _ Hb) as [brm ->].
      exists q. eexists. repeat split; try (apply Hrange; reflexivity).
      unfold form.parseIntValue in Hq.
      destruct (String.eqb _ ""); [discriminate|].
      destruct (strconv.Atoi _); [now injection Hq as ->|discriminate].
  - intros mode rate cm q q'.
    apply eq_true_iff_eq. rewrite !file_BuildSink_accepts.
    intuition discriminate.
  - intros mode rate cm q fn ws Hfn.
    destruct (file_BuildSink_sink _ _ _ _ _ _ Hfn) as [brm ->]. cbn. eauto.
  - intros mode rate cm q fn ws Hfn.
    assert (Hok : is_ok (file.mp3Format.BuildSink file.Mp3 mode rate cm true q)
                  = true) by now rewrite Hfn.
    apply file_BuildSink_accepts in Hok. destruct Hok as (_ & _ & Hrange).
    split; [now apply Hrange|].
    destruct (file_BuildSink_sink _ _ _ _ _ _ Hfn) as [brm ->]. cbn. eauto.
Qed.

(** C9, as the code has it: for every MP3 parameter tuple, the builder of
    package [file] decides on the tuple as the builder of package [input]
    decides on the same tuple with its mode upper-cased (accepted by both,
    or rejected by both for the same parameter); so the two builders make
    the same decision on every tuple whose mode [strings.ToUpper] leaves
    unchanged. *)
Theorem mp3_builders_agree_up_to_mode_case :
  (forall mode rate cm uq q,
     decision (file.mp3Format.BuildSink file.Mp3 mode rate cm uq q)
     = decision (input.mp3Format.Build input.Mp3 (strings.ToUpper mode)
                   rate cm uq q))
  /\ (forall mode rate cm uq q,
        strings.ToUpper mode = mode ->
        decision (file.mp3Format.BuildSink file.Mp3 mode rate cm uq q)
        = decision (input.mp3Format.Build input.Mp3 mode rate cm uq q)).
Proof.
  split.
  - exact file_BuildSink_decision.
  - intros mode rate cm uq q Hupper.
    now rewrite file_BuildSink_decision, Hupper.
Qed.

(** On a lower-case mode the two builders part: [file] accepts what
    [input] rejects for its mode. *)
Lemma mp3_builders_differ_on_lower_case (rate q : Z) (uq : bool) :
  0 <= rate <= 9 -> (uq = true -> 0 <= q <= 9) ->
  decision (file.mp3Format.BuildSink file.Mp3 "vbr" rate mp3.JointStereo uq q)
  = None
  /\ decision (input.mp3Format.Build input.Mp3 "vbr" rate mp3.JointStereo uq q)
     = Some BadBitRateMode.
Proof.
  intros Hrate Hq. split.
  - apply is_ok_decision, file_BuildSink_accepts.
    split; [cbn; set_solver|]. split; [left; now split|exact Hq].
  - unfold input.mp3Format.Build.
    destruct (decide (_ ∈ _)) as [|Hn]; [reflexivity|].
    exfalso. apply Hn. cbn. set_solver.
Qed.

(** The bit depths each builder of a wav sink accepts. *)
Lemma wav_BuildSink_accepts (b : Z) :
  is_ok (file.wavFormat.BuildSink file.Wav b) = true <->
  b = 8 \/ b = 16 \/ b = 24 \/ b = 32.
Proof.
  unfold file.wavFormat.BuildSink.
  destruct (decide (_ ∈ _)) as [Hin|Hout]; cbn in *.
  - split; [intros _; set_solver|reflexivity].
  - split; [discriminate|]. intros Hb. exfalso. apply Hout.
    unfold signal.BitDepth8, signal.BitDepth16, signal.BitDepth24,
      signal.BitDepth32. set_solver.
Qed.

Lemma wav_Build_accepts (b : Z) :
  is_ok (input.wavFormat.Build input.Wav b) = true <->
  b = 8 \/ b = 16 \/ b = 24 \/ b = 32.
Proof.
  unfold input.wavFormat.Build.
  destruct (decide (_ ∈ _)) as [Hin|Hout]; cbn in *.
  - split; [intros _; set_solver|reflexivity].
  - split; [discriminate|]. intros Hb. exfalso. apply Hout.
    unfold signal.BitDepth8, signal.BitDepth16, signal.BitDepth24,
      signal.BitDepth32. set_solver.
Qed.

(** C6: building a WAV sink with bit depth b succeeds if and only if b is
    in {8,16,24,32}; in particular bit depth 11 yields the unsupported
    bit-depth error, and a request for it acquires no output resource. *)
Theorem wav_bit_depth_domain :
  (forall b, is_ok (file.wavFormat.BuildSink file.Wav b) = true <->
             b = 8 \/ b = 16 \/ b = 24 \/ b = 32)
  /\ (forall b, is_ok (input.wavFormat.Build input.Wav b) = true <->
                b = 8 \/ b = 16 \/ b = 24 \/ b = 32)
  /\ decision (file.wavFormat.BuildSink file.Wav 11) = Some BadBitDepth
  /\ decision (input.wavFormat.Build input.Wav 11) = Some BadBitDepth
  /\ (forall data,
        strings.ToLower (url.Get data "format") = ".wav" ->
        url.Get data "wav-bit-depth" = "11" ->
        forall c, form.ParseSink c data = (None, "", Some (ErrBitDepth 11)))
  /\ (forall FilePump (c : form.Encode) bufferSize tempDir w data,
        controller.Form w = Ok data ->
        strings.ToLower (url.Get data "format") = ".wav" ->
        url.Get data "wav-bit-depth" = "11" ->
        trace.count trace.acquires
          (controller.Convert FilePump c bufferSize tempDir w) = 0%nat).
Proof.
  assert (Hparse : forall data,
    strings.ToLower (url.Get data "format") = ".wav" ->
    url.Get data "wav-bit-depth" = "11" ->
    forall c, form.ParseSink c data = (None, "", Some (ErrBitDepth 11))).
  { intros data Hformat Hdepth c.
    unfold form.ParseSink, form.parseWAVSink, form.parseIntValue.
    rewrite Hformat, Hdepth. reflexivity. }
  split; [exact wav_BuildSink_accepts|].
  split; [exact wav_Build_accepts|].
  split; [reflexivity|]. split; [reflexivity|].
  split; [exact Hparse|].
  intros FilePump c bufferSize tempDir w data Hform Hformat Hdepth.
  apply rejected_acquires_nothing.
  intros data' Hdata'. rewrite Hform in Hdata'. injection Hdata' as <-.
  cbn [input.ParseSink form.Encode_ConvertForm].
  now rewrite (Hparse data Hformat Hdepth c).
Qed.
End BuilderClaims.

(** ** The properties at concrete requests *)

(** C1 at the request "mp3, CBR, no bit rate": the form parser answers
    that the bit rate is not provided, and no temp file is created. *)
Lemma rejected_request_acquires_no_resource_witness :
  controller.Form (scenario.world 100 scenario.cbr_without_rate None)
  = Ok scenario.cbr_without_rate
  /\ @input.ParseSink _ (@form.Encode_ConvertForm cmd.channel_modes)
       scenario.limits_1MB scenario.cbr_without_rate
     = (None, "", Some (ErrNotProvided "bit rate"))
  /\ trace.count trace.acquires
       (@controller.Convert _ (@form.Encode_ConvertForm cmd.channel_modes)
          scenario.FilePump scenario.limits_1MB 1024 "/tmp/phono"
          (scenario.world 100 scenario.cbr_without_rate None)) = 0%nat.
Proof.
  split; [reflexivity|]. split; [vm_compute; reflexivity|].
  apply (@rejected_request_acquires_no_resource _
           (@form.Encode_ConvertForm cmd.channel_modes)
           scenario.FilePump scenario.limits_1MB 1024 "/tmp/phono"
           (scenario.world 100 scenario.cbr_without_rate None)
           scenario.cbr_without_rate None "" (ErrNotProvided "bit rate")).
  - reflexivity.
  - vm_compute; reflexivity.
Defined.

(** C2 at a request whose pipe fails while running: the temp file is
    closed once and removed once. *)
Lemma acquired_resource_released_exactly_once_witness :
  let w := scenario.world 100 scenario.vbr_quality_4
             (Some (ErrExternal "unexpected EOF")) in
  let tr := @controller.Convert _ (@form.Encode_ConvertForm cmd.channel_modes)
              scenario.FilePump scenario.limits_1MB 1024 "/tmp/phono" w in
  controller.TempFileResult w = Ok "/tmp/phono/001"
  /\ trace.count trace.acquires tr <> 0%nat
  /\ trace.count trace.fails tr = 1%nat
  /\ trace.count trace.closes tr = 1%nat
  /\ trace.count trace.removes tr = 1%nat
  /\ In (controller.EvClose (TempFile "/tmp/phono/001")) tr
  /\ In (controller.EvRemove "/tmp/phono/001") tr.
Proof.
  cbv zeta.
  split; [reflexivity|]. split; [vm_compute; discriminate|].
  split; [vm_compute; reflexivity|].
  apply (@acquired_resource_released_exactly_once _
           (@form.Encode_ConvertForm cmd.channel_modes)
           scenario.FilePump scenario.limits_1MB 1024 "/tmp/phono"
           (scenario.world 100 scenario.vbr_quality_4
              (Some (ErrExternal "unexpected EOF")))
           "/tmp/phono/001").
  - reflexivity.
  - vm_compute; discriminate.
Defined.

(** C3 at concrete tuples: an unknown mode is rejected for the mode, and
    a constant-rate request without a bit rate is rejected for the rate
    field the mode selects. *)
Lemma mp3_rate_validated_against_mode_range_witness :
  @input.mp3Format.Build (@input.Mp3 cmd.channel_modes) "XYZ" 4 2 false 0
  = Err (ErrVBRMode "XYZ")
  /\ @form.parseMP3Sink cmd.channel_modes scenario.cbr_without_rate
     = Err (ErrNotProvided "bit rate")
  /\ is_ok (input.mp3Format.Build (@input.Mp3 cmd.channel_modes)
              "VBR" 9 2 false 0) = true
  /\ is_ok (input.mp3Format.Build (@input.Mp3 cmd.channel_modes)
              "VBR" 10 2 false 0) = false
  /\ is_ok (input.mp3Format.Build (@input.Mp3 cmd.channel_modes)
              "CBR" 320 2 false 0) = true
  /\ is_ok (input.mp3Format.Build (@input.Mp3 cmd.channel_modes)
              "ABR" 7 2 false 0) = false.
Proof.
  destruct (@mp3_rate_validated_against_mode_range cmd.channel_modes)
    as (_ & _ & Hmode & _ & _ & _ & Hrate).
  split; [|split].
  - apply Hmode; [cbn; set_solver | discriminate..].
  - apply (Hrate _ 2); [reflexivity | now left | reflexivity].
  - repeat split; vm_compute; reflexivity.
Defined.

(** C5 at concrete forms: without the gate the quality field is not
    looked at; with the gate and no quality the form is rejected; with
    the gate and quality 7 the sink carries quality 7. *)
Lemma mp3_quality_gated_by_use_quality_witness :
  @form.parseMP3Sink cmd.channel_modes
    (<["mp3-quality" := ["99"]]> scenario.vbr_quality_4)
  = @form.parseMP3Sink cmd.channel_modes scenario.vbr_quality_4
  /\ is_ok (@form.parseMP3Sink cmd.channel_modes
              (<["mp3-use-quality" := ["true"]]> scenario.vbr_quality_4))
     = false
  /\ match @form.parseMP3Sink cmd.channel_modes scenario.vbr_with_quality_7 with
     | Ok fn =>
         match fn (TempFile "out") with
         | pipe.Mp3Sink s => mp3.Quality s = Some 7
         | _ => False
         end
     | Err _ => False
     end.
Proof.
  destruct (@mp3_quality_gated_by_use_quality cmd.channel_modes)
    as (Hoff & Hon & _).
  split; [|split].
  - apply (Hoff scenario.vbr_quality_4); now left.
  - apply (Hon (<["mp3-use-quality" := ["true"]]> scenario.vbr_quality_4));
      reflexivity.
  - vm_compute; reflexivity.
Defined.

(** C6 at the request "wav at bit depth 11". *)
Lemma wav_bit_depth_domain_witness :
  @form.ParseSink cmd.channel_modes scenario.limits_1MB scenario.wav_depth_11
  = (None, "", Some (ErrBitDepth 11))
  /\ trace.count trace.acquires
       (@controller.Convert _ (@form.Encode_ConvertForm cmd.channel_modes)
          scenario.FilePump scenario.limits_1MB 1024 "/tmp/phono"
          (scenario.world 100 scenario.wav_depth_11 None)) = 0%nat
  /\ is_ok (file.wavFormat.BuildSink file.Wav 16) = true.
Proof.
  destruct (@wav_bit_depth_domain cmd.channel_modes)
    as (Hfile & _ & _ & _ & Hparse & Hconvert).
  split; [|split].
  - apply Hparse; reflexivity.
  - apply (Hconvert _ _ _ _ _ scenario.wav_depth_11); reflexivity.
  - apply Hfile. tauto.
Defined.

(** C8 at a delivered request whose temp file can be neither closed nor
    removed: both failures are logged, the response is the one of the
    request whose release succeeds. *)
Lemma release_failure_is_logged_only_witness :
  let w := scenario.world 100 scenario.vbr_quality_4 None in
  let released := trace.with_release w (Some (ErrExternal "file already closed"))
                    (Some (ErrExternal "permission denied")) in
  let tr := @controller.Convert _ (@form.Encode_ConvertForm cmd.channel_modes)
              scenario.FilePump scenario.limits_1MB 1024 "/tmp/phono" released in
  trace.count trace.fails tr = 0%nat
  /\ trace.response tr
     = trace.response
         (@controller.Convert _ (@form.Encode_ConvertForm cmd.channel_modes)
            scenario.FilePump scenario.limits_1MB 1024 "/tmp/phono" w)
  /\ trace.count (trace.logged "Failed to close temp file") tr = 1%nat
  /\ trace.count (trace.logged "Failed to delete temp file") tr = 1%nat
  /\ trace.count trace.logs tr = 2%nat.
Proof.
  cbv zeta. split; [vm_compute; reflexivity|].
  destruct (@release_failure_is_logged_only _
              (@form.Encode_ConvertForm cmd.channel_modes)
              scenario.FilePump scenario.limits_1MB 1024 "/tmp/phono"
              (scenario.world 100 scenario.vbr_quality_4 None)
              (Some (ErrExternal "file already closed"))
              (Some (ErrExternal "permission denied")))
    as (_ & Hresponse & _ & Hlogged & _).
  split; [exact Hresponse|].
  apply (Hlogged "/tmp/phono/001"); [reflexivity | vm_compute; discriminate].
Defined.

(** C9, as the code has it, at an upper-case mode. *)
Lemma mp3_builders_agree_up_to_mode_case_witness :
  decision (file.mp3Format.BuildSink (@file.Mp3 cmd.channel_modes)
              "VBR" 4 2 false 5)
  = decision (input.mp3Format.Build (@input.Mp3 cmd.channel_modes)
                "VBR" 4 2 false 5)
  /\ decision (file.mp3Format.BuildSink (@file.Mp3 cmd.channel_modes)
                 "CBR" 7 2 false 5)
     = decision (input.mp3Format.Build (@input.Mp3 cmd.channel_modes)
                   "CBR" 7 2 false 5).
Proof.
  destruct (@mp3_builders_agree_up_to_mode_case cmd.channel_modes)
    as (_ & Hsame).
  split; apply Hsame; reflexivity.
Defined.

(** C9 as stated fails at the defaults of [encode mp3] (mode "vbr",
    rate 4, channel mode 2, no quality override): package [file] accepts
    the tuple, package [input] rejects it for its mode. *)
Lemma mp3_builders_disagree_at_cli_defaults :
  decision (file.mp3Format.BuildSink (@file.Mp3 cmd.channel_modes)
              cmd.default_bitRateMode cmd.default_bitRate
              cmd.default_channelMode false cmd.default_quality)
  = None
  /\ decision (input.mp3Format.Build (@input.Mp3 cmd.channel_modes)
                 cmd.default_bitRateMode cmd.default_bitRate
                 cmd.default_channelMode false cmd.default_quality)
     = Some BadBitRateMode.
Proof. split; vm_compute; reflexivity. Qed.

(** ** The input size limit *)

(** The limit is configuration keyed by format: the last element of the
    request path, lower-cased, selects the field of [Encode]. *)
Lemma InputMaxSize_keyed_by_format (c : form.Encode) (url : string) :
  let ext := strings.ToLower (path.Base url) in
  (ext = ".mp3" -> form.InputMaxSize c url = Ok (form.Mp3MaxSize c))
  /\ (ext = ".wav" -> form.InputMaxSize c url = Ok (form.WavMaxSize c))
  /\ (ext = ".flac" -> form.InputMaxSize c url = Ok (form.FlacMaxSize c))
  /\ (ext <> ".mp3" -> ext <> ".wav" -> ext <> ".flac" ->
      form.InputMaxSize c url = Err (ErrFormatNotSupported ext)).
Proof.
  intros ext. unfold form.InputMaxSize. fold ext. cbn.
  repeat split.
  - now intros ->.
  - now intros ->.
  - now intros ->.
  - intros Hmp3 Hwav Hflac.
    destruct (String.eqb_spec ext ".mp3"); [contradiction|].
    destruct (String.eqb_spec ext ".wav"); [contradiction|].
    destruct (String.eqb_spec ext ".flac"); [contradiction|]. reflexivity.
Qed.

(** So is the table handed to the page: every extension of a format
    maps to the limit of that format. *)
Lemma maxSizes_keyed_by_extension (wav mp3 flac : Z) :
  form.maxSizes wav mp3 flac !! ".mp3" = Some mp3
  /\ form.maxSizes wav mp3 flac !! ".wav" = Some wav
  /\ form.maxSizes wav mp3 flac !! ".wave" = Some wav
  /\ form.maxSizes wav mp3 flac !! ".flac" = Some flac.
Proof. unfold form.maxSizes. cbn. repeat split; now simplify_map_eq. Qed.

(** The script of the page lets any size through when the limit is 0. *)
Lemma onSubmitClick_zero_is_unlimited (size : Z) :
  form.onSubmitClick_tooBig 0 size = false.
Proof. reflexivity. Qed.

(** The handler does not: with a limit of 0 the body reader refuses the
    first byte, and every upload is answered 400 before its form is read. *)
Lemma zero_limit_rejects_nonempty_body {F : Type} `{input.ConvertForm F}
    (FilePump : string -> stream -> result pipe.Pump) (form : F)
    (bufferSize : Z) (tempDir : string) (w : controller.World) :
  controller.Method w = http.MethodPost ->
  input.InputMaxSize form (controller.URLPath w) = Ok 0 ->
  0 < controller.BodySize w ->
  controller.Convert FilePump form bufferSize tempDir w
  = [controller.EvMaxBytesReader 0; controller.EvParseMultipartForm 0;
     controller.EvError ErrBodyTooLarge http.StatusBadRequest].
Proof.
  intros Hpost Hzero Hbody. step_handler.
  rewrite Hpost, Hzero. step_handler.
  destruct (Z.ltb_spec (Z.max 0 0) (controller.BodySize w)) as [_|Hle];
    [reflexivity|].
  cbn in Hle. lia.
Qed.

(** C4 on the code: the service as [encode http] configures it (no
    limit, every field 0), a one-byte upload to "/.wav".  The limit looked
    up for the format is 0; the page's script would let the file through;
    the handler rejects it for its size and never reads the form. *)
Theorem zero_size_limit_rejects_upload :
  form.InputMaxSize scenario.no_limits "/.wav" = Ok 0
  /\ form.onSubmitClick_tooBig 0 1 = false
  /\ @controller.Convert _ (@form.Encode_ConvertForm cmd.channel_modes)
       scenario.FilePump scenario.no_limits 1024 "/tmp/phono"
       (scenario.world 1 scenario.vbr_quality_4 None)
     = [controller.EvMaxBytesReader 0; controller.EvParseMultipartForm 0;
        controller.EvError ErrBodyTooLarge http.StatusBadRequest]
  /\ trace.count trace.fails
       (@controller.Convert _ (@form.Encode_ConvertForm cmd.channel_modes)
          scenario.FilePump scenario.limits_1MB 1024 "/tmp/phono"
          (scenario.world 1 scenario.vbr_quality_4 None)) = 0%nat.
Proof.
  split; [reflexivity|]. split; [reflexivity|]. split.
  - apply zero_limit_rejects_nonempty_body; [reflexivity | reflexivity | cbn; lia].
  - vm_compute; reflexivity.
Qed.

(* ===================================================================== *)
(** * More properties of the code *)
(* ===================================================================== *)

(** ** The handler, path by path *)

(** Split on every answer of the world, from the method down to the two
    calls of [cleanUp]. *)
Ltac every_path FilePump form w :=
  step_handler;
  case_oracle (controller.Method w);
  [ case_oracle (controller.WriteErr w)
  | destruct (input.InputMaxSize form (controller.URLPath w)) as [maxSize|];
    step_handler;
    [ case_oracle (Z.max 0 maxSize <? controller.BodySize w)%Z;
      [ | destruct (controller.Form w) as [data|]; step_handler;
          [ destruct (controller.FormFile w (input.FileKey form))
              as [fileName|]; step_handler;
            [ case_oracle (FilePump fileName (Upload fileName));
              [ destruct (input.ParseSink form data) as [[fn ext] [err|]]
                  eqn:Eparse;
                step_handler;
                [ | destruct (controller.TempFileResult w) as [name|];
                    step_handler;
                    [ destruct fn as [fn|]; step_handler; all_paths w | ] ]
              | ]
            | ]
          | ] ]
    | ]
  | ].

Section HandlerPaths.
Context {F : Type} `{input.ConvertForm F}.
Variable FilePump : string -> stream -> result pipe.Pump.
Variables (form : F) (bufferSize : Z) (tempDir : string).

Local Abbreviation Convert :=
  (controller.Convert FilePump form bufferSize tempDir).

(** X1: whatever the request and the world, the handler answers with at
    most one [http.Error], and its status is 400 or 500. *)
Theorem at_most_one_error_answer (w : controller.World) :
  (trace.count trace.fails (Convert w) <= 1)%nat
  /\ forallb trace.client_or_server_error (Convert w) = true.
Proof.
  every_path FilePump form w; split; (reflexivity || (cbn; lia)).
Qed.

(** X2: the temp file is used only while it is open, and nothing is
    written to the caller once its release has begun: no pipe, seek, stat
    or copy before [ioutil.TempFile] or after the temp file is closed, no
    response event after it is closed; and the uploaded file is closed
    last, after the release (deferred calls run last deferred first). *)
Theorem temp_file_used_only_while_open (w : controller.World) :
  trace.none trace.uses_temp (trace.before trace.acquires (Convert w)) = true
  /\ trace.none trace.uses_temp (trace.after trace.closes (Convert w)) = true
  /\ trace.none trace.responds (trace.after trace.closes (Convert w)) = true
  /\ trace.after trace.closes_upload (Convert w) = [].
Proof.
  every_path FilePump form w; repeat split; reflexivity.
Qed.

(** X3: once [r.FormFile] has returned the uploaded file, that file is
    closed exactly once, as the last thing the handler does, whatever
    happens after. *)
Theorem uploaded_file_closed_exactly_once
    (w : controller.World) (uploaded : string) :
  trace.count trace.asks_file (Convert w) <> 0%nat ->
  controller.FormFile w (input.FileKey form) = Ok uploaded ->
  trace.count trace.closes_upload (Convert w) = 1%nat
  /\ last (Convert w) = Some (controller.EvClose (Upload uploaded)).
Proof.
  every_path FilePump form w; intros Hasks Hfile;
    try (now destruct Hasks); try discriminate;
    injection Hfile as <-; split; reflexivity.
Qed.

(** When the file cannot be opened, or is never asked for, nothing is
    closed. *)
Lemma no_upload_nothing_closed (w : controller.World) (cause : error) :
  controller.FormFile w (input.FileKey form) = Err cause ->
  trace.count trace.closes_upload (Convert w) = 0%nat.
Proof.
  every_path FilePump form w; intros Hfile; try discriminate; reflexivity.
Qed.

(** X4: the response headers are set only after the pipe was built and
    run, the temp file rewound and its size read without error; they are
    then exactly three, and Content-Length is the size [Stat] gave. *)
Theorem headers_only_after_successful_run (w : controller.World) :
  trace.count trace.sets_header (Convert w) <> 0%nat ->
  controller.PipeNewErr w = None
  /\ controller.PipeRunErr w = None
  /\ controller.SeekErr w = None
  /\ trace.count trace.sets_header (Convert w) = 3%nat
  /\ exists size,
       controller.StatResult w = Ok size
       /\ In (controller.EvSetHeader "Content-Length" (strconv.FormatInt size))
            (Convert w).
Proof.
  every_path FilePump form w; intros Hset; try (now destruct Hset);
    (split; [reflexivity|]); (split; [reflexivity|]); (split; [reflexivity|]);
    (split; [reflexivity|]); eexists; (split; [reflexivity|]); find_in.
Qed.

(** X5: a pipe that fails to build or to run is answered 400 with the
    wrapped cause, and its output is discarded: the temp file is never
    rewound, measured or copied, no header is set, and the pipe is not
    run when it could not be built. *)
Theorem failed_pipe_is_discarded (w : controller.World) (cause : error) :
  trace.count trace.uses_temp (Convert w) <> 0%nat ->
  controller.PipeNewErr w = Some cause
  \/ (controller.PipeNewErr w = None /\ controller.PipeRunErr w = Some cause) ->
  trace.none trace.reads_back (Convert w) = true
  /\ trace.none trace.sets_header (Convert w) = true
  /\ trace.count trace.fails (Convert w) = 1%nat
  /\ (controller.PipeNewErr w = Some cause ->
      trace.none trace.runs_pipe (Convert w) = true
      /\ In (controller.EvError (ErrBuildPipe cause) http.StatusBadRequest)
            (Convert w))
  /\ (controller.PipeNewErr w = None ->
      In (controller.EvError (ErrExecutePipe cause) http.StatusBadRequest)
         (Convert w)).
Proof.
  every_path FilePump form w; intros Huses Hcause;
    try (now destruct Huses);
    destruct Hcause as [Hnew | [Hnew Hrun]]; try discriminate;
    try injection Hnew as <-; try injection Hrun as <-;
    (split; [reflexivity|]); (split; [reflexivity|]); (split; [reflexivity|]);
    split; intros Hcase; try discriminate;
    try (split; [reflexivity|]); find_in.
Qed.

(** A form whose [ParseSink] never returns a nil closure with a nil error
    never makes the handler call a nil closure. *)
Lemma no_nil_closure_no_panic (w : controller.World) :
  (forall data ext, input.ParseSink form data <> (None, ext, None)) ->
  trace.count trace.panics (Convert w) = 0%nat.
Proof.
  intros Hnil. every_path FilePump form w; try reflexivity.
  all: exfalso; exact (Hnil _ _ Eparse).
Qed.

(** X6: a request that passes every step is delivered: the handler
    answers with exactly the three headers and the copy of the temp file,
    the download being named "result_1" with the extension [ParseSink]
    returned, the content type being that of this extension and the
    length the size of the temp file; no error is written. *)
Theorem delivered_response
    (w : controller.World) (limit size : Z) (values : url.Values)
    (uploaded temp outExt : string) (pump : pipe.Pump)
    (build : input.BuildFunc) :
  controller.Method w = http.MethodPost ->
  input.InputMaxSize form (controller.URLPath w) = Ok limit ->
  controller.BodySize w <= Z.max 0 limit ->
  controller.Form w = Ok values ->
  controller.FormFile w (input.FileKey form) = Ok uploaded ->
  FilePump uploaded (Upload uploaded) = Ok pump ->
  input.ParseSink form values = (Some build, outExt, None) ->
  controller.TempFileResult w = Ok temp ->
  controller.PipeNewErr w = None ->
  controller.PipeRunErr w = None ->
  controller.SeekErr w = None ->
  controller.StatResult w = Ok size ->
  controller.CopyErr w = None ->
  trace.response (Convert w)
  = [controller.EvSetHeader "Content-Disposition"
       ("attachment; filename=result_1" ++ outExt);
     controller.EvSetHeader "Content-Type" (controller.TypeByExtension w outExt);
     controller.EvSetHeader "Content-Length" (strconv.FormatInt size);
     controller.EvCopy temp]
  /\ In (controller.EvPipeNew bufferSize pump (build (TempFile temp))) (Convert w)
  /\ trace.count trace.fails (Convert w) = 0%nat.
Proof.
  intros Hpost Hlimit Hsize Hform Hfile Hpump Hparse Htemp Hnew Hrun Hseek
    Hstat Hcopy.
  step_handler. rewrite Hpost, Hlimit. step_handler.
  destruct (Z.ltb_spec (Z.max 0 limit) (controller.BodySize w)); [lia|].
  rewrite Hform. step_handler. rewrite Hfile. step_handler.
  rewrite Hpump. step_handler. rewrite Hparse. step_handler.
  rewrite Htemp. step_handler. rewrite Hnew. step_handler.
  rewrite Hrun. step_handler. rewrite Hseek. step_handler.
  rewrite Hstat. step_handler. rewrite Hcopy. step_handler.
  destruct (controller.CloseErr w), (controller.RemoveErr w); step_handler;
    (split; [reflexivity|]); (split; [find_in | reflexivity]).
Qed.
End HandlerPaths.

(** ** Suffixes and extensions *)

Lemma append_cons (c : ascii) (a b : string) :
  String c a ++ b = String c (a ++ b).
Proof. reflexivity. Qed.

Lemma substring_all (s : string) : substring 0 (String.length s) s = s.
Proof. induction s as [|c s IH]; simpl; [reflexivity|]. now rewrite IH. Qed.

Lemma substring_skip (pre t : string) :
  substring (String.length pre) (String.length t) (pre ++ t) = t.
Proof.
  induction pre as [|c pre IH]; [apply substring_all|].
  rewrite append_cons. exact IH.
Qed.

Lemma length_append (a b : string) :
  String.length (a ++ b) = (String.length a + String.length b)%nat.
Proof.
  induction a as [|c a IH]; [reflexivity|].
  rewrite append_cons. simpl. now rewrite IH.
Qed.

(** A string is what comes before a position followed by what comes
    after it. *)
Lemma substring_split (s : string) (n : nat) :
  (n <= String.length s)%nat ->
  s = substring 0 n s ++ substring n (String.length s - n) s.
Proof.
  revert n. induction s as [|c s IH]; intros n Hn; simpl in *.
  - destruct n; [reflexivity|lia].
  - destruct n as [|n]; simpl.
    + now rewrite substring_all.
    + rewrite append_cons. f_equal. apply IH. lia.
Qed.

(** [strings.HasSuffix] holds exactly of the strings that end with the
    suffix. *)
Lemma HasSuffix_iff (s t : string) :
  strings.HasSuffix s t = true <-> exists pre, s = pre ++ t.
Proof.
  unfold strings.HasSuffix. split.
  - intros Hs. apply andb_true_iff in Hs. destruct Hs as [Hlen Heq].
    apply Nat.leb_le in Hlen. apply String.eqb_eq in Heq.
    exists (substring 0 (String.length s - String.length t) s).
    assert (Hsplit := substring_split s (String.length s - String.length t)
                        ltac:(lia)).
    replace (String.length s - (String.length s - String.length t))%nat
      with (String.length t) in Hsplit by lia.
    now rewrite Heq in Hsplit.
  - intros [pre ->]. rewrite length_append. apply andb_true_iff. split.
    + apply Nat.leb_le. lia.
    + replace (String.length pre + String.length t - String.length t)%nat
        with (String.length pre) by lia.
      rewrite substring_skip. apply String.eqb_refl.
Qed.

Lemma append_assoc (a b c : string) : (a ++ b) ++ c = a ++ (b ++ c).
Proof.
  induction a as [|x a IH]; [reflexivity|].
  rewrite !append_cons. now rewrite IH.
Qed.

Lemma append_nil_r (a : string) : a ++ "" = a.
Proof.
  induction a as [|x a IH]; [reflexivity|].
  rewrite append_cons. now rewrite IH.
Qed.

Lemma bytes_of_append (a b : string) :
  list_ascii_of_string (a ++ b)
  = (list_ascii_of_string a ++ list_ascii_of_string b)%list.
Proof.
  induction a as [|x a IH]; [reflexivity|].
  rewrite append_cons. simpl. now rewrite IH.
Qed.

Lemma string_of_app (l1 l2 : list ascii) :
  string_of_list_ascii (l1 ++ l2)%list
  = string_of_list_ascii l1 ++ string_of_list_ascii l2.
Proof.
  induction l1 as [|x l1 IH]; [reflexivity|].
  simpl. rewrite append_cons. now rewrite IH.
Qed.

Lemma ToLower_append (a b : string) :
  strings.ToLower (a ++ b) = strings.ToLower a ++ strings.ToLower b.
Proof.
  induction a as [|x a IH]; [reflexivity|].
  rewrite append_cons. simpl. rewrite append_cons. now rewrite IH.
Qed.

Lemma plain_rev (e : list ascii) : plain (rev e) = plain e.
Proof.
  unfold plain. apply eq_true_iff_eq. rewrite !forallb_forall.
  split; intros Hall c Hc; apply Hall; apply in_rev in Hc;
    first [exact Hc | now rewrite rev_involutive in Hc].
Qed.

(** The walk of [filepath.Ext] over plain bytes ends at the dot that
    follows them. *)
Lemma ext_loop_found (walked rest seen : list ascii) :
  plain walked = true ->
  filepath.ext_loop (walked ++ "."%char :: rest) seen
  = "."%char :: (rev walked ++ seen)%list.
Proof.
  revert seen. induction walked as [|c walked IH]; intros seen Hplain.
  - reflexivity.
  - simpl in Hplain. apply andb_true_iff in Hplain. destruct Hplain as [Hc Hrest].
    apply andb_true_iff in Hc. destruct Hc as [Hslash Hdot].
    apply negb_true_iff in Hslash, Hdot.
    simpl. rewrite Hslash, Hdot, (IH (c :: seen) Hrest).
    now rewrite <- app_assoc.
Qed.

(** It finds nothing, or it stops at a dot after plain bytes only. *)
Lemma ext_loop_inv (r seen : list ascii) :
  filepath.ext_loop r seen = []
  \/ exists walked rest, r = (walked ++ "."%char :: rest)%list /\ plain walked = true.
Proof.
  revert seen. induction r as [|c r IH]; intros seen; simpl; [now left|].
  destruct (Ascii.eqb c "/") eqn:Hslash; [now left|].
  destruct (Ascii.eqb_spec c ".") as [->|Hdot].
  - right. now exists [], r.
  - destruct (IH (c :: seen)) as [Hnone | (walked & rest & -> & Hplain)];
      [now left|].
    right. exists (c :: walked), rest. split; [reflexivity|].
    simpl. rewrite Hslash, Hplain.
    now destruct (Ascii.eqb_spec c ".").
Qed.

(** [filepath.Ext] of a name that ends with a dot and plain bytes is that
    ending. *)
Lemma Ext_append (stem e : string) :
  plain (list_ascii_of_string e) = true ->
  filepath.Ext (stem ++ String "." e) = String "." e.
Proof.
  intros Hplain. unfold filepath.Ext.
  rewrite bytes_of_append. simpl list_ascii_of_string.
  rewrite rev_app_distr. simpl rev. rewrite <- app_assoc. simpl app.
  rewrite ext_loop_found by now rewrite plain_rev.
  rewrite rev_involutive, app_nil_r. simpl.
  now rewrite string_of_list_ascii_of_string.
Qed.

(** [filepath.Ext] returns a suffix of the path: nothing, or a dot and
    plain bytes. *)
Lemma Ext_suffix (p : string) :
  exists stem, p = stem ++ filepath.Ext p.
Proof.
  unfold filepath.Ext.
  destruct (ext_loop_inv (rev (list_ascii_of_string p)) [])
    as [-> | (walked & rest & Hrev & Hplain)].
  - exists p. simpl. now rewrite append_nil_r.
  - rewrite Hrev, ext_loop_found by exact Hplain.
    exists (string_of_list_ascii (rev rest)).
    rewrite <- (string_of_list_ascii_of_string p) at 1.
    rewrite <- (rev_involutive (list_ascii_of_string p)), Hrev.
    rewrite rev_app_distr. simpl rev. rewrite <- app_assoc. simpl app.
    rewrite app_nil_r. now rewrite string_of_app.
Qed.

(** On an extension made of a dot and plain bytes, the suffix test of
    package [input] and the extension test of package [file] agree. *)
Lemma HasSuffix_iff_Ext (name e : string) :
  plain (list_ascii_of_string e) = true ->
  strings.HasSuffix name (String "." e) = true
  <-> filepath.Ext name = String "." e.
Proof.
  intros Hplain. rewrite HasSuffix_iff. split.
  - intros [stem ->]. now apply Ext_append.
  - intros Hext. destruct (Ext_suffix name) as [stem Hname].
    exists stem. now rewrite <- Hext.
Qed.

Section InputResolution.
Context `{mp3.Modes}.

Lemma HasExtension_by_Ext (name e1 : string) :
  plain (list_ascii_of_string e1) = true ->
  strings.HasSuffix (strings.ToLower name) (String "." e1) = true
  <-> strings.ToLower (filepath.Ext name) = String "." e1.
Proof.
  intros Hplain. rewrite Ext_ToLower. now apply HasSuffix_iff_Ext.
Qed.

(** X7: the two packages resolve the format of an input file alike: the
    suffix test of [input.HasExtension] against the extensions package
    [input] registers for a format holds exactly when the lower-cased
    [filepath.Ext] of the name is in the extension set package [file]
    registers for it. *)
Theorem input_and_file_resolve_alike (name : string) :
  input.HasExtension name (input.wavFormat.Extensions input.Wav)
  = file.hasExtension (strings.ToLower (filepath.Ext name))
      (file.wavFormat.Extensions file.Wav)
  /\ input.HasExtension name (input.mp3Format.Extensions input.Mp3)
     = file.hasExtension (strings.ToLower (filepath.Ext name))
         (file.mp3Format.Extensions file.Mp3).
Proof.
  unfold input.HasExtension, file.hasExtension. cbn.
  split; apply eq_true_iff_eq;
    rewrite ?orb_true_iff, ?orb_false_r, bool_decide_eq_true,
      !(HasExtension_by_Ext name) by reflexivity;
    set_solver.
Qed.

(** The pump [file.Pump] builds for a lower-cased extension. *)
Lemma Pump_of_extension (name : string) :
  let ext := strings.ToLower (filepath.Ext name) in
  (ext = ".wav" \/ ext = ".wave" ->
   exists build, file.Pump name = Ok build /\ forall rs, build rs = pipe.WavPump rs)
  /\ (ext = ".mp3" ->
      exists build, file.Pump name = Ok build /\ forall rs, build rs = pipe.Mp3Pump rs)
  /\ (ext = ".flac" ->
      exists build, file.Pump name = Ok build /\ forall rs, build rs = pipe.FlacPump rs).
Proof.
  intros ext. unfold file.Pump. fold ext.
  split; [|split].
  - intros [-> | ->]; eexists; split; reflexivity.
  - intros ->. eexists; split; reflexivity.
  - intros ->. eexists; split; reflexivity.
Qed.

Lemma Ext_of_registered (stem ext e : string) :
  strings.ToLower ext = String "." e ->
  plain (list_ascii_of_string e) = true ->
  strings.ToLower (filepath.Ext (stem ++ ext)) = String "." e.
Proof.
  intros Hext Hplain.
  now rewrite Ext_ToLower, ToLower_append, Hext, Ext_append.
Qed.

(** A registered extension resolves whatever precedes it. *)
Lemma Pump_resolves_registered_extension_aux (stem ext : string) :
  (strings.ToLower ext = ".wav" \/ strings.ToLower ext = ".wave" ->
   exists build, file.Pump (stem ++ ext) = Ok build
                 /\ forall rs, build rs = pipe.WavPump rs)
  /\ (strings.ToLower ext = ".mp3" ->
      exists build, file.Pump (stem ++ ext) = Ok build
                    /\ forall rs, build rs = pipe.Mp3Pump rs)
  /\ (strings.ToLower ext = ".flac" ->
      exists build, file.Pump (stem ++ ext) = Ok build
                    /\ forall rs, build rs = pipe.FlacPump rs).
Proof.
  destruct (Pump_of_extension (stem ++ ext)) as (Hwav & Hmp3 & Hflac).
  split; [|split].
  - intros [Hext | Hext]; apply Hwav; [left | right];
      now apply Ext_of_registered.
  - intros Hext. apply Hmp3. now apply Ext_of_registered.
  - intros Hext. apply Hflac. now apply Ext_of_registered.
Qed.

(** X8: whatever the directory and the stem of a file name, and whatever
    the case of its letters, a name that ends with a registered extension
    resolves to the pump of that format: wav for ".wav" and ".wave", mp3
    for ".mp3", flac for ".flac". *)
Theorem Pump_resolves_registered_extension (stem ext : string) :
  (strings.ToLower ext = ".wav" \/ strings.ToLower ext = ".wave" ->
   exists build, file.Pump (stem ++ ext) = Ok build
                 /\ forall rs, build rs = pipe.WavPump rs)
  /\ (strings.ToLower ext = ".mp3" ->
      exists build, file.Pump (stem ++ ext) = Ok build
                    /\ forall rs, build rs = pipe.Mp3Pump rs)
  /\ (strings.ToLower ext = ".flac" ->
      exists build, file.Pump (stem ++ ext) = Ok build
                    /\ forall rs, build rs = pipe.FlacPump rs).
Proof. exact (Pump_resolves_registered_extension_aux stem ext). Qed.

(** X9: the name [outFileName] gives a download ends with the extension
    it is given; for each output format the page offers, that name
    resolves back, through [file.Pump], to an input of the same format. *)
Theorem outFileName_keeps_extension (prefix : string) (idx : Z) (ext : string) :
  strings.HasSuffix (controller.outFileName prefix idx ext) ext = true
  /\ (In ext form.OutFormats ->
      filepath.Ext (controller.outFileName prefix idx ext) = ext
      /\ is_ok (file.Pump (controller.outFileName prefix idx ext)) = true).
Proof.
  assert (Hname : controller.outFileName prefix idx ext
                  = (prefix ++ "_" ++ strconv.FormatInt idx) ++ ext).
  { unfold controller.outFileName. now rewrite !append_assoc. }
  split.
  - rewrite Hname. apply HasSuffix_iff. now eexists.
  - rewrite Hname. intros Hin.
    assert (Hext : ext = ".wav" \/ ext = ".mp3")
      by (cbn in Hin; intuition congruence).
    destruct Hext as [-> | ->].
    + split; [now apply Ext_append|].
      destruct (Pump_resolves_registered_extension_aux
                  (prefix ++ "_" ++ strconv.FormatInt idx) ".wav")
        as (Hwav & _).
      destruct Hwav as (build & -> & _); [now left | reflexivity].
    + split; [now apply Ext_append|].
      destruct (Pump_resolves_registered_extension_aux
                  (prefix ++ "_" ++ strconv.FormatInt idx) ".mp3")
        as (_ & Hmp3 & _).
      destruct Hmp3 as (build & -> & _); reflexivity.
Qed.
End InputResolution.

(** ** Numbers in form fields *)

Section Decimal.
Import Decimal.

Local Open Scope Z_scope.

(** The value [Pos.of_uint_acc] accumulates, digit by digit. *)
Lemma of_uint_acc_value (d : uint) (acc : positive) :
  Zpos (Pos.of_uint_acc d acc)
  = Zpos acc * 10 ^ Z.of_nat (nb_digits d) + Z.of_N (Pos.of_uint d).
Proof.
  revert acc. induction d as [|d IH|d IH|d IH|d IH|d IH|d IH|d IH|d IH|d IH|d IH];
    intros acc; cbn [Pos.of_uint_acc Pos.of_uint nb_digits];
    rewrite ?Nat2Z.inj_succ, ?Z.pow_succ_r by lia;
    cbn [Z.of_N]; rewrite ?IH; lia.
Qed.

(** The digit loop of [Atoi] reads back what [FormatInt] prints. *)
Lemma parse_digits_string_of_uint (d : uint) (acc : Z) :
  strconv.parse_digits (NilEmpty.string_of_uint d) acc
  = Some (acc * 10 ^ Z.of_nat (nb_digits d) + Z.of_N (Pos.of_uint d)).
Proof.
  revert acc. induction d as [|d IH|d IH|d IH|d IH|d IH|d IH|d IH|d IH|d IH|d IH];
    intros acc; cbn [NilEmpty.string_of_uint strconv.parse_digits nb_digits];
    [f_equal; cbn; lia | ..];
    change (strconv.is_digit _) with true; cbn iota;
    rewrite IH; f_equal;
    rewrite ?Nat2Z.inj_succ, ?Z.pow_succ_r by lia;
    cbn [Pos.of_uint Z.of_N]; rewrite ?of_uint_acc_value;
    repeat match goal with
    | |- context [strconv.digit ?c] =>
        let v := eval vm_compute in (strconv.digit c) in
        change (strconv.digit c) with v
    end; lia.
Qed.

Lemma string_of_uint_nonempty (d : uint) :
  d <> Nil ->
  exists c rest,
    NilEmpty.string_of_uint d = String c rest
    /\ Ascii.eqb c "-" = false /\ Ascii.eqb c "+" = false.
Proof.
  destruct d; [congruence | ..]; intros _; eexists; eexists;
    (split; [reflexivity | split; reflexivity]).
Qed.

(** [strconv.Atoi] reads back every [int] that [strconv.FormatInt]
    prints. *)
Lemma Atoi_FormatInt (z : Z) :
  - 2 ^ 63 <= z < 2 ^ 63 -> strconv.Atoi (strconv.FormatInt z) = Some z.
Proof.
  intros Hz. unfold strconv.FormatInt.
  destruct z as [|p|p]; [reflexivity | ..];
    cbn [Z.to_int NilZero.string_of_int];
    pose proof (DecimalPos.Unsigned.to_uint_nonnil p) as Hnil;
    pose proof (DecimalPos.Unsigned.of_to p) as Hof;
    unfold NilZero.string_of_uint;
    destruct (string_of_uint_nonempty _ Hnil) as (c & rest & Hstr & Hminus & Hplus);
    pose proof (parse_digits_string_of_uint (Pos.to_uint p) 0) as Hparse;
    rewrite Hof, Hstr in Hparse; cbn [Z.of_N] in Hparse;
    rewrite Z.mul_0_l, Z.add_0_l in Hparse.
  - destruct (Pos.to_uint p); [congruence | ..];
      rewrite Hstr; unfold strconv.Atoi; rewrite Hminus, Hplus; cbn [orb];
      rewrite Hparse;
      destruct (Z.leb_spec (2 ^ 63) (Z.pos p)); (reflexivity || lia).
  - destruct (Pos.to_uint p); [congruence | ..];
      rewrite Hstr; unfold strconv.Atoi;
      change (Ascii.eqb "-" "-") with true;
      rewrite orb_true_r; cbn iota; rewrite Hparse;
      destruct (Z.ltb_spec (2 ^ 63) (Z.pos p)); (reflexivity || lia).
Qed.

Lemma parse_digits_nonneg (s : string) (acc u : Z) :
  0 <= acc -> strconv.parse_digits s acc = Some u -> 0 <= u.
Proof.
  revert acc. induction s as [|c s IH]; intros acc Hacc; cbn.
  - now intros [= <-].
  - destruct (strconv.is_digit c) eqn:Hdigit; [|discriminate].
    apply IH. unfold strconv.is_digit in Hdigit. unfold strconv.digit.
    apply andb_true_iff in Hdigit. destruct Hdigit as [Hlow _].
    apply N.leb_le in Hlow. lia.
Qed.

(** What [strconv.Atoi] returns fits an [int]. *)
Lemma Atoi_bounds (s : string) (v : Z) :
  strconv.Atoi s = Some v -> - 2 ^ 63 <= v < 2 ^ 63.
Proof.
  assert (Hcheck : forall neg un,
    0 <= un ->
    (if neg : bool
     then (if 2 ^ 63 <? un then None else Some (- un))
     else (if 2 ^ 63 <=? un then None else Some un)) = Some v ->
    - 2 ^ 63 <= v < 2 ^ 63).
  { intros [|] un Hun.
    - destruct (Z.ltb_spec (2 ^ 63) un); [discriminate|]. intros [= <-]. lia.
    - destruct (Z.leb_spec (2 ^ 63) un); [discriminate|]. intros [= <-]. lia. }
  unfold strconv.Atoi. destruct s as [|c rest]; [discriminate|]. cbv zeta.
  destruct (Ascii.eqb c "+" || Ascii.eqb c "-").
  - destruct rest as [|c' rest']; [discriminate|].
    destruct (strconv.parse_digits _ 0) as [un|] eqn:Hparse; [|discriminate].
    apply parse_digits_nonneg in Hparse; [|lia]. now apply Hcheck.
  - destruct (strconv.parse_digits _ 0) as [un|] eqn:Hparse; [|discriminate].
    apply parse_digits_nonneg in Hparse; [|lia]. now apply Hcheck.
Qed.
End Decimal.

(** X10: a form field that holds an [int] as [strconv.FormatInt] (or the
    [%d] of the page template) prints it is parsed back to that [int],
    whatever else the form holds. *)
Theorem parseIntValue_reads_back_FormatInt
    (data : url.Values) (key name : string) (z : Z) :
  (- 2 ^ 63 <= z < 2 ^ 63)%Z ->
  form.parseIntValue (<[key := [strconv.FormatInt z]]> data) key name = Ok z.
Proof.
  intros Hz. unfold form.parseIntValue. rewrite Get_insert_eq.
  pose proof (Atoi_FormatInt z Hz) as Hatoi.
  destruct (String.eqb_spec (strconv.FormatInt z) "") as [Hempty|_].
  - rewrite Hempty in Hatoi. discriminate.
  - now rewrite Hatoi.
Qed.

(** X11: [parseIntValue] succeeds only on a field that is present, with a
    value that fits an [int]; a field that is absent or empty is reported
    as not provided, any other text as a parsing failure that quotes
    it. *)
Theorem parseIntValue_outcomes (data : url.Values) (key name : string) :
  match form.parseIntValue data key name with
  | Ok v => url.Get data key <> "" /\ (- 2 ^ 63 <= v < 2 ^ 63)%Z
            /\ strconv.Atoi (url.Get data key) = Some v
  | Err e =>
      (url.Get data key = "" /\ e = ErrNotProvided name)
      \/ (url.Get data key <> "" /\ strconv.Atoi (url.Get data key) = None
          /\ e = ErrFailedParsing name (url.Get data key))
  end.
Proof.
  unfold form.parseIntValue.
  destruct (String.eqb_spec (url.Get data key) "") as [Hempty|Hfilled].
  - left. now split.
  - destruct (strconv.Atoi (url.Get data key)) as [v|] eqn:Hatoi.
    + split; [exact Hfilled|]. split; [now apply Atoi_bounds in Hatoi | reflexivity].
    + right. now repeat split.
Qed.

(** ** What the builders and the form parser build *)

Section Built.
Context `{mp3.Modes}.

(** X12: an accepted MP3 tuple builds a sink that carries exactly the
    validated parameters: the bit-rate mode named by the mode string with
    the given rate, the channel mode, the quality if and only if the gate
    is on, and as its writer whatever stream the closure is later given.
    Package [file] does the same on the upper-cased mode. *)
Theorem mp3_sink_carries_validated_parameters
    (mode : string) (rate cm : Z) (uq : bool) (q : Z) :
  (forall fn, input.mp3Format.Build input.Mp3 mode rate cm uq q = Ok fn ->
     exists brm,
       bit_rate_mode mode rate brm
       /\ forall ws, fn ws = pipe.Mp3Sink
            {| mp3.SinkBitRateMode := brm; mp3.SinkChannelMode := cm;
               mp3.Writer := ws;
               mp3.Quality := if uq then Some q else None |})
  /\ (forall fn, file.mp3Format.BuildSink file.Mp3 mode rate cm uq q = Ok fn ->
        exists brm,
          bit_rate_mode (strings.ToUpper mode) rate brm
          /\ forall ws, fn ws = pipe.Mp3Sink
               {| mp3.SinkBitRateMode := brm; mp3.SinkChannelMode := cm;
                  mp3.Writer := ws;
                  mp3.Quality := if uq then Some q else None |}).
Proof.
  unfold bit_rate_mode. split; intros fn.
  - unfold input.mp3Format.Build, input.mp3Format.bitRate.
    cbn [input.Mp3 input.mp3Format.VBR input.mp3Format.CBR input.mp3Format.ABR
         input.mp3Format.MaxBitRate input.mp3Format.MinBitRate
         input.mp3Format.ChannelModes].
    destruct (decide _); [|discriminate].
    destruct (String.eqb_spec mode "VBR") as [->|Hv];
      [|destruct (String.eqb_spec mode "CBR") as [->|Hc];
        [|destruct (String.eqb_spec mode "ABR") as [->|Ha]]];
      split_ltb; try discriminate; destruct uq; cbn; split_ltb;
      try discriminate; intros [= <-]; eexists;
      (split; [first [left; split; reflexivity
                     | right; left; split; reflexivity
                     | right; right; split; reflexivity]
              | intros ws; reflexivity]).
  - unfold file.mp3Format.BuildSink, file.mp3Format.bitRate.
    cbn [file.Mp3 file.mp3Format.VBR file.mp3Format.CBR file.mp3Format.ABR
         file.mp3Format.MaxBitRate file.mp3Format.MinBitRate
         file.mp3Format.ChannelModes].
    destruct (decide _); [|discriminate].
    destruct (String.eqb_spec (strings.ToUpper mode) "VBR") as [->|Hv];
      [|destruct (String.eqb_spec (strings.ToUpper mode) "CBR") as [->|Hc];
        [|destruct (String.eqb_spec (strings.ToUpper mode) "ABR") as [->|Ha]]];
      split_ltb; try discriminate; destruct uq; cbn; split_ltb;
      try discriminate; intros [= <-]; eexists;
      (split; [first [left; split; reflexivity
                     | right; left; split; reflexivity
                     | right; right; split; reflexivity]
              | intros ws; reflexivity]).
Qed.

(** What [parseWAVSink] has read when it succeeds. *)
Lemma parseWAVSink_inv (data : url.Values) (fn : input.BuildFunc) :
  form.parseWAVSink data = Ok fn ->
  exists b,
    form.parseIntValue data "wav-bit-depth" "bit depth" = Ok b
    /\ (b = 8 \/ b = 16 \/ b = 24 \/ b = 32)
    /\ forall ws, fn ws = pipe.WavSink {| wav.BitDepth := b; wav.WriteSeeker := ws |}.
Proof.
  unfold form.parseWAVSink.
  destruct (form.parseIntValue data _ _) as [b|]; [|discriminate].
  intros Hbuild. exists b. split; [reflexivity|].
  assert (Hok : is_ok (input.wavFormat.Build input.Wav b) = true)
    by now rewrite Hbuild.
  split; [now apply wav_Build_accepts|].
  unfold input.wavFormat.Build in Hbuild.
  destruct (decide _); [|discriminate]. now injection Hbuild as <-.
Qed.

(** The three results of a successful [ParseSink]. *)
Lemma ParseSink_inv (c : form.Encode) (data : url.Values)
    (fn : option input.BuildFunc) (ext : string) :
  form.ParseSink c data = (fn, ext, None) ->
  exists build, fn = Some build
    /\ ((ext = ".wav" /\ form.parseWAVSink data = Ok build)
        \/ (ext = ".mp3" /\ form.parseMP3Sink data = Ok build)).
Proof.
  unfold form.ParseSink.
  destruct (String.eqb_spec (strings.ToLower (url.Get data "format"))
              (fileformat.DefaultExtension fileformat.WAV)) as [-> | _].
  - destruct (form.parseWAVSink data) as [build|]; cbn; [|discriminate].
    intros [= <- <-]. exists build. split; [reflexivity|]. now left.
  - destruct (String.eqb_spec (strings.ToLower (url.Get data "format"))
                (fileformat.DefaultExtension fileformat.MP3)) as [-> | _].
    + destruct (form.parseMP3Sink data) as [build|]; cbn; [|discriminate].
      intros [= <- <-]. exists build. split; [reflexivity|]. now right.
    + cbn. discriminate.
Qed.

(** X13: when [ParseSink] returns a nil error it returns a closure, and
    the extension it returns names the sink the closure builds: ".wav"
    with a wav sink of a supported bit depth, ".mp3" with an mp3 sink of
    a supported channel mode; in both the sink writes to the stream the
    closure is given. *)
Theorem ParseSink_extension_names_the_sink
    (c : form.Encode) (data : url.Values)
    (fn : option input.BuildFunc) (ext : string) :
  form.ParseSink c data = (fn, ext, None) ->
  exists build, fn = Some build
    /\ ((ext = ".wav"
         /\ forall ws, exists s,
              build ws = pipe.WavSink s /\ wav.WriteSeeker s = ws
              /\ (wav.BitDepth s = 8 \/ wav.BitDepth s = 16
                  \/ wav.BitDepth s = 24 \/ wav.BitDepth s = 32))
        \/ (ext = ".mp3"
            /\ forall ws, exists s,
                 build ws = pipe.Mp3Sink s /\ mp3.Writer s = ws
                 /\ mp3.SinkChannelMode s
                    ∈ input.mp3Format.ChannelModes input.Mp3)).
Proof.
  intros Hparse.
  destruct (ParseSink_inv _ _ _ _ Hparse) as (build & -> & [[-> Hwav] | [-> Hmp3]]);
    exists build; (split; [reflexivity|]).
  - left. split; [reflexivity|]. intros ws.
    destruct (parseWAVSink_inv _ _ Hwav) as (b & _ & Hdomain & Hsink).
    eexists. split; [apply Hsink|]. now split.
  - right. split; [reflexivity|]. intros ws.
    destruct (parseMP3Sink_inv _ _ Hmp3) as (cm & rate & uq & q & _ & _ & Hbuild).
    assert (Hok : is_ok (input.mp3Format.Build input.Mp3
        (url.Get data "mp3-bit-rate-mode") rate cm uq q) = true)
      by now rewrite Hbuild.
    apply input_Build_accepts in Hok. destruct Hok as (Hcm & _).
    destruct (input_Build_sink _ _ _ _ _ _ Hbuild) as [brm ->].
    unfold input.mp3Format.sink. destruct uq; eexists; now repeat split.
Qed.

(** X14: served with the form [Encode], the handler never calls a nil
    closure: no request makes it panic. *)
Theorem Encode_handler_never_panics
    (FilePump : string -> stream -> result pipe.Pump) (c : form.Encode)
    (bufferSize : Z) (tempDir : string) (w : controller.World) :
  trace.count trace.panics
    (controller.Convert FilePump c bufferSize tempDir w) = 0%nat.
Proof.
  apply no_nil_closure_no_panic. intros data ext Hparse.
  cbn [input.ParseSink form.Encode_ConvertForm] in Hparse.
  destruct (ParseSink_inv _ _ _ _ Hparse) as (build & Hnil & _). discriminate.
Qed.
End Built.

(** ** The page and the parser *)

Section Offered.
Context `{mp3.Modes}.

Lemma parseIntValue_error (data : url.Values) (key name : string) (e : error) :
  form.parseIntValue data key name = Err e -> unsupported_format (Some e) = false.
Proof.
  unfold form.parseIntValue. destruct (String.eqb _ _); [now intros [= <-]|].
  destruct (strconv.Atoi _); [discriminate | now intros [= <-]].
Qed.

Lemma parseBoolValue_error (data : url.Values) (key name : string) (e : error) :
  form.parseBoolValue data key name = Err e -> unsupported_format (Some e) = false.
Proof.
  unfold form.parseBoolValue. destruct (String.eqb _ _); [discriminate|].
  destruct (strconv.ParseBool _); [discriminate | now intros [= <-]].
Qed.

Lemma input_Build_error (mode : string) (rate cm : Z) (uq : bool) (q : Z)
    (e : error) :
  input.mp3Format.Build input.Mp3 mode rate cm uq q = Err e ->
  unsupported_format (Some e) = false.
Proof.
  unfold input.mp3Format.Build, input.mp3Format.bitRate.
  repeat case_match; intros; simplify_eq; reflexivity.
Qed.

Lemma parseWAVSink_error (data : url.Values) (e : error) :
  form.parseWAVSink data = Err e -> unsupported_format (Some e) = false.
Proof.
  unfold form.parseWAVSink.
  destruct (form.parseIntValue data _ _) as [b|e'] eqn:Hint.
  - unfold input.wavFormat.Build. destruct (decide _); [discriminate|].
    now intros [= <-].
  - intros [= <-]. eapply parseIntValue_error, Hint.
Qed.

Lemma parseMP3Sink_error (data : url.Values) (e : error) :
  form.parseMP3Sink data = Err e -> unsupported_format (Some e) = false.
Proof.
  unfold form.parseMP3Sink.
  repeat match goal with
  | |- context [match form.parseIntValue ?d ?k ?n with _ => _ end] =>
      let E := fresh "E" in destruct (form.parseIntValue d k n) eqn:E
  | |- context [match form.parseBoolValue ?d ?k ?n with _ => _ end] =>
      let E := fresh "E" in destruct (form.parseBoolValue d k n) eqn:E
  | |- context [if String.eqb ?a ?b then _ else _] => destruct (String.eqb a b)
  | |- context [if ?b then _ else _] => is_var b; destruct b
  end;
  first [ apply input_Build_error
        | intros [= <-]; first [reflexivity
                               | eapply parseIntValue_error; eassumption
                               | eapply parseBoolValue_error; eassumption] ].
Qed.

(** X15: [ParseSink] answers "Unsupported format" exactly for the formats
    the page does not offer in its [OutFormats] list, compared in lower
    case; every other error comes from the fields of an offered format. *)
Theorem unoffered_formats_are_the_unsupported_ones
    (c : form.Encode) (data : url.Values) :
  let format := strings.ToLower (url.Get data "format") in
  (In format form.OutFormats
   <-> unsupported_format (form.ParseSink c data).2 = false)
  /\ (unsupported_format (form.ParseSink c data).2 = true
      -> form.ParseSink c data = (None, "", Some (ErrUnsupportedFormat format))).
Proof.
  intros format. unfold form.ParseSink. fold format.
  change form.OutFormats with [".wav"; ".mp3"].
  cbn [fileformat.DefaultExtension fileformat.WAV fileformat.MP3].
  destruct (String.eqb_spec format ".wav") as [-> | Hwav].
  - assert (Herr : unsupported_format
        (let '(fn, err) := form.pair_of_result (form.parseWAVSink data) in
         (fn, match err with Some _ => "" | None => ".wav" end, err)).2 = false).
    { destruct (form.parseWAVSink data) eqn:E; cbn; [reflexivity|].
      eapply parseWAVSink_error, E. }
    rewrite Herr. split; [|discriminate]. split; [reflexivity|]. intros _.
    now left.
  - destruct (String.eqb_spec format ".mp3") as [-> | Hmp3].
    + assert (Herr : unsupported_format
          (let '(fn, err) := form.pair_of_result (form.parseMP3Sink data) in
           (fn, match err with Some _ => "" | None => ".mp3" end, err)).2 = false).
      { destruct (form.parseMP3Sink data) eqn:E; cbn; [reflexivity|].
        eapply parseMP3Sink_error, E. }
      rewrite Herr. split; [|discriminate]. split; [reflexivity|]. intros _.
      right. now left.
    + cbn. split; [|reflexivity]. split; [|discriminate].
      intros [<- | [<- | []]]; congruence.
Qed.
End Offered.

(** X16: the limit [InputMaxSize] answers for a request path is the limit
    the page holds in its [MaxSizes] table for the same extension, and the
    table has a limit for exactly the extensions the page accepts; but the
    handler refuses one extension the page accepts and has a limit for,
    ".wave", together with all those the table does not hold. *)
Theorem InputMaxSize_agrees_with_page_table (c : form.Encode) (url : string) :
  let ext := strings.ToLower (path.Base url) in
  let table :=
    form.maxSizes (form.WavMaxSize c) (form.Mp3MaxSize c) (form.FlacMaxSize c) in
  (forall e, In e form.AcceptExtensions <-> is_Some (table !! e))
  /\ match form.InputMaxSize c url with
     | Ok size => table !! ext = Some size
     | Err e =>
         e = ErrFormatNotSupported ext
         /\ (table !! ext = None
             \/ (ext = ".wave" /\ table !! ext = Some (form.WavMaxSize c)))
     end.
Proof.
  intros ext table.
  destruct (maxSizes_keyed_by_extension (form.WavMaxSize c) (form.Mp3MaxSize c)
              (form.FlacMaxSize c)) as (Hmp3 & Hwav & Hwave & Hflac).
  fold table in Hmp3, Hwav, Hwave, Hflac.
  assert (Hother : forall e, e <> ".mp3" -> e <> ".wav" -> e <> ".wave" ->
            e <> ".flac" -> table !! e = None).
  { intros e ? ? ? ?. unfold table, form.maxSizes. cbn.
    now rewrite !lookup_insert_ne, lookup_empty by congruence. }
  split.
  - intros e. change form.AcceptExtensions with [".wav"; ".wave"; ".mp3"; ".flac"].
    split.
    + intros [<- | [<- | [<- | [<- | []]]]]; eauto.
    + intros Hsome.
      destruct (decide (e = ".mp3")) as [->|]; [cbn; tauto|].
      destruct (decide (e = ".wav")) as [->|]; [cbn; tauto|].
      destruct (decide (e = ".wave")) as [->|]; [cbn; tauto|].
      destruct (decide (e = ".flac")) as [->|]; [cbn; tauto|].
      rewrite Hother in Hsome by assumption. now destruct Hsome.
  - unfold form.InputMaxSize. fold ext.
    cbn [fileformat.DefaultExtension fileformat.WAV fileformat.MP3 fileformat.FLAC].
    destruct (String.eqb_spec ext ".mp3") as [-> | ?]; [exact Hmp3|].
    destruct (String.eqb_spec ext ".wav") as [-> | ?]; [exact Hwav|].
    destruct (String.eqb_spec ext ".flac") as [-> | ?]; [exact Hflac|].
    split; [reflexivity|].
    destruct (decide (ext = ".wave")) as [-> | ?]; [right | left]; auto.
Qed.

(** ** Format resolution, in both directions *)

Section ResolutionClaim.
Context `{mp3.Modes}.

(** C7: input format resolution is case-insensitive and extension-based
    (the file name is lower-cased before its extension is compared
    against each registered format's extension set); output format
    resolution is case-insensitive and name-based; when no registered
    format matches, resolution fails with an unsupported-format error,
    and when one matches, resolution gives that format: the pump of the
    format whose extension set holds the lower-cased extension, the
    parser of the format whose name is the lower-cased format value,
    never the unsupported-format error.  Resolution is a function of the
    name alone: none of the three resolvers lives in the handler monad,
    so none has an effect. *)
Theorem format_resolution_case_insensitive :
  (* input, package file: by the lower-cased extension *)
  (forall n1 n2, strings.ToLower n1 = strings.ToLower n2 ->
                 same_pump (file.Pump n1) (file.Pump n2))
  /\ (forall n1 n2, filepath.Ext n1 = filepath.Ext n2 ->
                    same_pump (file.Pump n1) (file.Pump n2))
  /\ (forall n,
        let ext := strings.ToLower (filepath.Ext n) in
        ext <> ".wav" -> ext <> ".wave" -> ext <> ".mp3" -> ext <> ".flac" ->
        file.Pump n = Err (ErrUnsupportedExtension n))
  (* input, package input: by a suffix of the lower-cased name *)
  /\ (forall n1 n2 exts, strings.ToLower n1 = strings.ToLower n2 ->
                         input.HasExtension n1 exts = input.HasExtension n2 exts)
  /\ (forall n exts,
        input.HasExtension n exts = true <->
        exists ext, In ext exts /\ strings.HasSuffix (strings.ToLower n) ext = true)
  (* output: by the lower-cased name *)
  /\ (forall c data name,
        form.ParseSink c (<["format" := [name]]> data)
        = form.ParseSink c (<["format" := [strings.ToLower name]]> data))
  /\ (forall c data,
        let ext := strings.ToLower (url.Get data "format") in
        ext <> ".wav" -> ext <> ".mp3" ->
        form.ParseSink c data = (None, "", Some (ErrUnsupportedFormat ext)))
  (* input, package file: a registered extension gives the pump of its
     format *)
  /\ (forall n,
        let ext := strings.ToLower (filepath.Ext n) in
        (ext = ".wav" \/ ext = ".wave" ->
         exists build, file.Pump n = Ok build
                       /\ forall rs, build rs = pipe.WavPump rs)
        /\ (ext = ".mp3" ->
            exists build, file.Pump n = Ok build
                          /\ forall rs, build rs = pipe.Mp3Pump rs)
        /\ (ext = ".flac" ->
            exists build, file.Pump n = Ok build
                          /\ forall rs, build rs = pipe.FlacPump rs))
  (* input, package input: the extensions registered for a format match
     exactly the names with one of them as lower-cased extension *)
  /\ (forall n,
        let ext := strings.ToLower (filepath.Ext n) in
        (input.HasExtension n (input.wavFormat.Extensions input.Wav) = true
         <-> ext = ".wav" \/ ext = ".wave")
        /\ (input.HasExtension n (input.mp3Format.Extensions input.Mp3) = true
            <-> ext = ".mp3"))
  (* output: a registered name gives the parser of its format *)
  /\ (forall c data,
        let ext := strings.ToLower (url.Get data "format") in
        (ext = ".wav" ->
         form.ParseSink c data
         = match form.parseWAVSink data with
           | Ok fn => (Some fn, ".wav", None)
           | Err err => (None, "", Some err)
           end
         /\ unsupported_format (form.ParseSink c data).2 = false)
        /\ (ext = ".mp3" ->
            form.ParseSink c data
            = match form.parseMP3Sink data with
              | Ok fn => (Some fn, ".mp3", None)
              | Err err => (None, "", Some err)
              end
            /\ unsupported_format (form.ParseSink c data).2 = false)).
Proof.
  assert (Hcase : forall P1 P2 P3 P4 P5 P6 P7 P8 P9 P10 : Prop,
            P1 -> P2 -> P3 -> P4 -> P5 -> P6 -> P7 -> P8 -> P9 -> P10 ->
            P1 /\ P2 /\ P3 /\ P4 /\ P5 /\ P6 /\ P7 /\ P8 /\ P9 /\ P10)
    by tauto.
  apply Hcase; clear Hcase.
  - intros n1 n2 Hlow. apply Pump_by_extension.
    now rewrite !Ext_ToLower, Hlow.
  - intros n1 n2 Hext. apply Pump_by_extension. now rewrite Hext.
  - intros n ext Hwav Hwave Hmp3 Hflac. unfold file.Pump, file.hasExtension.
    fold ext. cbn.
    rewrite !bool_decide_eq_false_2; [reflexivity | set_solver..].
  - intros n1 n2 exts Hlow. unfold input.HasExtension. now rewrite Hlow.
  - intros n exts. unfold input.HasExtension. rewrite existsb_exists.
    split; intros [ext Hext]; now exists ext.
  - intros c data name. unfold form.ParseSink.
    rewrite !Get_insert_eq, ToLower_idem.
    now rewrite !parseWAVSink_format, !parseMP3Sink_format.
  - intros c data ext Hwav Hmp3. unfold form.ParseSink. fold ext. cbn.
    destruct (String.eqb_spec ext ".wav"); [contradiction|].
    destruct (String.eqb_spec ext ".mp3"); [contradiction|]. reflexivity.
  - intros n. apply Pump_of_extension.
  - intros n ext. unfold ext, input.HasExtension. cbn.
    rewrite ?orb_true_iff, ?orb_false_r,
      !(HasExtension_by_Ext n) by reflexivity.
    split; split; intros Hext; try tauto;
      repeat destruct Hext as [Hext | Hext]; try discriminate; tauto.
  - intros c data ext. split; intros Hext; unfold form.ParseSink; fold ext;
      rewrite Hext; cbn.
    + destruct (form.parseWAVSink data) as [fn|err] eqn:Hparse; cbn;
        (split; [reflexivity|]); [reflexivity|].
      eapply parseWAVSink_error, Hparse.
    + destruct (form.parseMP3Sink data) as [fn|err] eqn:Hparse; cbn;
        (split; [reflexivity|]); [reflexivity|].
      eapply parseMP3Sink_error, Hparse.
Qed.
End ResolutionClaim.

(** C7 at concrete names. *)
Lemma format_resolution_case_insensitive_witness :
  @file.Pump cmd.channel_modes "notes.txt"
  = Err (ErrUnsupportedExtension "notes.txt")
  /\ input.HasExtension "Track.WAV" [".wav"; ".wave"]
     = input.HasExtension "track.wav" [".wav"; ".wave"]
  /\ @form.ParseSink cmd.channel_modes scenario.limits_1MB
       (<["format" := [".MP3"]]> scenario.vbr_quality_4)
     = @form.ParseSink cmd.channel_modes scenario.limits_1MB
         (<["format" := [".mp3"]]> scenario.vbr_quality_4)
  /\ @form.ParseSink cmd.channel_modes scenario.limits_1MB
       (<["format" := [".ogg"]]> scenario.vbr_quality_4)
     = (None, "", Some (ErrUnsupportedFormat ".ogg"))
  /\ is_ok (@file.Pump cmd.channel_modes "music/Track.WAV") = true
  /\ (exists build,
        @file.Pump cmd.channel_modes "music/Take.2.MP3" = Ok build
        /\ forall rs, build rs = pipe.Mp3Pump rs)
  /\ input.HasExtension "music/Track.Wave"
       (input.wavFormat.Extensions input.Wav) = true
  /\ unsupported_format
       (@form.ParseSink cmd.channel_modes scenario.limits_1MB
          (<["format" := [".WAV"]]> scenario.wav_depth_11)).2 = false.
Proof.
  destruct (@format_resolution_case_insensitive cmd.channel_modes)
    as (_ & _ & Hpump & Hhas & _ & Hout & Hnone & Hbuilds & Hregistered
        & Hparser).
  split; [|split; [|split; [|split; [|split; [|split; [|split]]]]]].
  - apply Hpump; discriminate.
  - apply Hhas. reflexivity.
  - apply (Hout scenario.limits_1MB scenario.vbr_quality_4 ".MP3").
  - etransitivity;
      [apply (Hnone scenario.limits_1MB
                (<["format" := [".ogg"]]> scenario.vbr_quality_4));
       vm_compute; discriminate
      |vm_compute; reflexivity].
  - vm_compute; reflexivity.
  - pose proof (Hbuilds "music/Take.2.MP3") as Hmp3. cbv zeta in Hmp3.
    destruct Hmp3 as (_ & Hmp3 & _). apply Hmp3. reflexivity.
  - pose proof (Hregistered "music/Track.Wave") as Hwav. cbv zeta in Hwav.
    destruct Hwav as (Hwav & _). apply Hwav. right. reflexivity.
  - pose proof (Hparser scenario.limits_1MB
                  (<["format" := [".WAV"]]> scenario.wav_depth_11)) as Hwav.
    cbv zeta in Hwav. destruct Hwav as (Hwav & _).
    apply Hwav. vm_compute; reflexivity.
Defined.

(** ** The sink a user provides *)

(** X17: [SetOutput], [Extension] and [Sink] pick the same sink, mp3
    before wav.  [SetOutput] never stores through a nil pointer; it sets
    the writer of the sink that [Sink] returns, keeps every other field
    of that sink and every other sink of the heap, and does nothing when
    [Sink] returns nil, which is exactly when [Extension] is empty. *)
Theorem SetOutput_reaches_the_sink_in_use
    (s : input.Sink) (ws : stream) (h : input.Heap) :
  exists h', input.SetOutput s ws h = Some h'
    /\ match input.Sink_Sink s with
       | Some (input.Mp3Ref a) =>
           input.SinkMp3 s = Some a
           /\ input.Extension s = ".mp3"
           /\ input.wavSinks h' = input.wavSinks h
           /\ (forall b, b <> a ->
                 input.mp3Sinks h' !! b = input.mp3Sinks h !! b)
           /\ (forall x, input.mp3Sinks h !! a = Some x ->
                 exists y, input.mp3Sinks h' !! a = Some y
                   /\ mp3.Writer y = ws
                   /\ mp3.SinkBitRateMode y = mp3.SinkBitRateMode x
                   /\ mp3.SinkChannelMode y = mp3.SinkChannelMode x
                   /\ mp3.Quality y = mp3.Quality x)
       | Some (input.WavRef a) =>
           input.SinkMp3 s = None /\ input.SinkWav s = Some a
           /\ input.Extension s = ".wav"
           /\ input.mp3Sinks h' = input.mp3Sinks h
           /\ (forall b, b <> a ->
                 input.wavSinks h' !! b = input.wavSinks h !! b)
           /\ (forall x, input.wavSinks h !! a = Some x ->
                 exists y, input.wavSinks h' !! a = Some y
                   /\ wav.WriteSeeker y = ws
                   /\ wav.BitDepth y = wav.BitDepth x)
       | None =>
           input.SinkMp3 s = None /\ input.SinkWav s = None
           /\ input.Extension s = "" /\ h' = h
       end.
Proof.
  destruct s as [[a|] [b|]]; cbn; eexists; (split; [reflexivity|]); cbn;
    repeat split;
    try (intros c Hne; now rewrite lookup_alter_ne by congruence);
    intros x Hx; rewrite lookup_alter_eq, Hx; cbn; eauto 10.
Qed.

(** ** The tables of the older form *)

Lemma outFormats_snoc (exts : list string) (ext : string) :
  inputform.outFormats (exts ++ [ext])
  = match inputform.outFormats exts with
    | None => None
    | Some m =>
        match inputform.from_1 ext with
        | None => None
        | Some value => Some (<[ext := value]> m)
        end
    end.
Proof. unfold inputform.outFormats. now rewrite foldl_app. Qed.

(** X18: [outFormats] panics exactly when one of the extensions is the
    empty string; otherwise its table maps each extension it was given,
    and nothing else, to the extension without its first byte. *)
Theorem outFormats_strips_the_first_byte (exts : list string) :
  match inputform.outFormats exts with
  | None => In "" exts
  | Some m =>
      ~ In "" exts
      /\ forall ext,
           (In ext exts ->
              exists c, ext = String c (default "" (m !! ext))
                        /\ is_Some (m !! ext))
           /\ (~ In ext exts -> m !! ext = None)
  end.
Proof.
  induction exts as [|ext exts IH] using rev_ind.
  - cbn. split; [tauto|]. intros ext. split; [tauto|]. intros _. apply lookup_empty.
  - rewrite outFormats_snoc.
    destruct (inputform.outFormats exts) as [m|]; [|apply in_or_app; now left].
    destruct IH as [Hnonempty IH].
    destruct ext as [|c rest]; cbn [inputform.from_1].
    + apply in_or_app. right. now left.
    + split.
      * intros Hin. apply in_app_or in Hin. destruct Hin as [Hin | [Hin | []]];
          [tauto | discriminate].
      * intros ext. split.
        -- intros Hin. destruct (decide (ext = String c rest)) as [-> | Hne].
           ++ exists c. rewrite lookup_insert_eq. cbn. eauto.
           ++ rewrite lookup_insert_ne by congruence.
              apply in_app_or in Hin. destruct Hin as [Hin | [Hin | []]];
                [now apply IH | congruence].
        -- intros Hnotin. rewrite lookup_insert_ne.
           ++ apply IH. intros Hin. apply Hnotin, in_or_app. now left.
           ++ intros <-. apply Hnotin, in_or_app. right. now left.
Qed.

(** X19: the size table of the older form is the table of the newer one
    without its flac entry: given the same wav and mp3 limits, both hold
    the same limit for every other extension, and the older one holds
    none for ".flac". *)
Theorem older_size_table_lacks_only_flac `{mp3.Modes} (wav mp3 flac : Z) :
  inputform.maxSizes wav mp3 !! ".flac" = None
  /\ form.maxSizes wav mp3 flac !! ".flac" = Some flac
  /\ forall ext, ext <> ".flac" ->
       inputform.maxSizes wav mp3 !! ext = form.maxSizes wav mp3 flac !! ext.
Proof.
  unfold inputform.maxSizes, form.maxSizes. cbn.
  split; [reflexivity|]. split; [reflexivity|].
  intros ext Hne. now rewrite (lookup_insert_ne _ ".flac") by congruence.
Qed.

(** ** A form without limits *)

(** X20: with a form [form.Encode] whose three limits are 0, as its zero
    value [form.Encode{}] has them, the handler [Convert] answers every
    POST that carries a body with one error of status 400, whatever the
    path, the file and the fields: the form is not read, the file not
    asked for, no temp file created. *)
Theorem zero_limits_refuse_every_upload `{mp3.Modes}
    (FilePump : string -> stream -> result pipe.Pump) (c : form.Encode)
    (bufferSize : Z) (tempDir : string) (w : controller.World) :
  form.WavMaxSize c = 0 -> form.Mp3MaxSize c = 0 -> form.FlacMaxSize c = 0 ->
  controller.Method w = http.MethodPost ->
  0 < controller.BodySize w ->
  exists cause,
    trace.response (controller.Convert FilePump c bufferSize tempDir w)
    = [controller.EvError cause http.StatusBadRequest]
    /\ trace.count trace.asks_file
         (controller.Convert FilePump c bufferSize tempDir w) = 0%nat
    /\ trace.count trace.acquires
         (controller.Convert FilePump c bufferSize tempDir w) = 0%nat.
Proof.
  intros Hwav Hmp3 Hflac Hpost Hbody.
  destruct (input.InputMaxSize c (controller.URLPath w))
    as [limit|cause] eqn:Hlimit.
  - assert (limit = 0) as ->.
    { cbn [input.InputMaxSize form.Encode_ConvertForm] in Hlimit.
      unfold form.InputMaxSize in Hlimit.
      repeat case_match; simplify_eq; congruence. }
    rewrite (zero_limit_rejects_nonempty_body FilePump c
               bufferSize tempDir w Hpost Hlimit Hbody).
    exists ErrBodyTooLarge. now repeat split.
  - exists cause. step_handler. rewrite Hpost, Hlimit. step_handler.
    now repeat split.
Qed.

(** ** The fields the parser reads *)

Section Fields.
Context `{mp3.Modes}.

Lemma parseIntValue_insert_ne (data : url.Values) (field key name : string)
    (v : list string) :
  field <> key ->
  form.parseIntValue (<[field := v]> data) key name
  = form.parseIntValue data key name.
Proof. intros Hne. unfold form.parseIntValue. now rewrite Get_insert_ne. Qed.

Lemma parseBoolValue_insert_ne (data : url.Values) (field key name : string)
    (v : list string) :
  field <> key ->
  form.parseBoolValue (<[field := v]> data) key name
  = form.parseBoolValue data key name.
Proof. intros Hne. unfold form.parseBoolValue. now rewrite Get_insert_ne. Qed.

(** X21: the parser reads only the fields of the chosen output: the wav
    parser only the bit depth; the mp3 parser the bit rate only in
    constant and average mode, the variable-rate quality only in variable
    mode, the quality only when its switch is on, and besides these the
    channel mode, the mode and the switch.  Whatever a request carries in
    any other field changes nothing. *)
Theorem parser_reads_only_fields_of_chosen_output
    (data : url.Values) (field : string) (v : list string) :
  (field <> "wav-bit-depth" ->
     form.parseWAVSink (<[field := v]> data) = form.parseWAVSink data)
  /\ (url.Get data "mp3-bit-rate-mode" = "VBR" -> field = "mp3-bit-rate" ->
        form.parseMP3Sink (<[field := v]> data) = form.parseMP3Sink data)
  /\ (url.Get data "mp3-bit-rate-mode" <> "VBR" -> field = "mp3-vbr-quality" ->
        form.parseMP3Sink (<[field := v]> data) = form.parseMP3Sink data)
  /\ (form.parseBoolValue data "mp3-use-quality" "mp3 quality" = Ok false ->
        field = "mp3-quality" ->
        form.parseMP3Sink (<[field := v]> data) = form.parseMP3Sink data)
  /\ (field <> "mp3-channel-mode" -> field <> "mp3-bit-rate-mode" ->
      field <> "mp3-bit-rate" -> field <> "mp3-vbr-quality" ->
      field <> "mp3-use-quality" -> field <> "mp3-quality" ->
        form.parseMP3Sink (<[field := v]> data) = form.parseMP3Sink data).
Proof.
  split; [|split; [|split; [|split]]].
  - intros Hne. unfold form.parseWAVSink.
    now rewrite parseIntValue_insert_ne.
  - intros Hmode ->. unfold form.parseMP3Sink.
    rewrite !(parseIntValue_insert_ne data "mp3-bit-rate" "mp3-channel-mode"),
      !(parseIntValue_insert_ne data "mp3-bit-rate" "mp3-vbr-quality"),
      !(parseIntValue_insert_ne data "mp3-bit-rate" "mp3-quality"),
      !parseBoolValue_insert_ne, !Get_insert_ne by discriminate.
    rewrite Hmode. reflexivity.
  - intros Hmode ->. unfold form.parseMP3Sink.
    rewrite !(parseIntValue_insert_ne data "mp3-vbr-quality" "mp3-channel-mode"),
      !(parseIntValue_insert_ne data "mp3-vbr-quality" "mp3-bit-rate"),
      !(parseIntValue_insert_ne data "mp3-vbr-quality" "mp3-quality"),
      !parseBoolValue_insert_ne, !Get_insert_ne by discriminate.
    cbn [input.mp3Format.VBR input.Mp3].
    destruct (String.eqb_spec (url.Get data "mp3-bit-rate-mode") "VBR");
      [contradiction | reflexivity].
  - intros Hswitch ->. unfold form.parseMP3Sink.
    rewrite !(parseIntValue_insert_ne data "mp3-quality" "mp3-channel-mode"),
      !(parseIntValue_insert_ne data "mp3-quality" "mp3-bit-rate"),
      !(parseIntValue_insert_ne data "mp3-quality" "mp3-vbr-quality"),
      !parseBoolValue_insert_ne, !Get_insert_ne by discriminate.
    rewrite Hswitch. reflexivity.
  - intros ? ? ? ? ? ?. unfold form.parseMP3Sink.
    now rewrite !parseIntValue_insert_ne, !parseBoolValue_insert_ne,
      !Get_insert_ne by assumption.
Qed.
End Fields.

(** ** Every supported output can be requested *)

Lemma parseIntValue_of_FormatInt (data : url.Values) (key name : string) (z : Z) :
  - 2 ^ 63 <= z < 2 ^ 63 ->
  url.Get data key = strconv.FormatInt z ->
  form.parseIntValue data key name = Ok z.
Proof.
  intros Hz Hfield. unfold form.parseIntValue. rewrite Hfield.
  pose proof (Atoi_FormatInt z Hz) as Hatoi.
  destruct (String.eqb_spec (strconv.FormatInt z) "") as [Hempty|_].
  - rewrite Hempty in Hatoi. discriminate.
  - now rewrite Hatoi.
Qed.

Section Requests.
Context `{mp3.Modes}.

(** X22: a form whose format is ".wav" in any letter case and whose bit
    depth field holds one of 8, 16, 24, 32 in decimal is parsed without
    error, into a closure that builds the wav sink of that depth on the
    stream it is given, under the extension ".wav". *)
Theorem supported_wav_depth_can_be_requested
    (c : form.Encode) (data : url.Values) (depth : Z) :
  strings.ToLower (url.Get data "format") = ".wav" ->
  url.Get data "wav-bit-depth" = strconv.FormatInt depth ->
  depth = 8 \/ depth = 16 \/ depth = 24 \/ depth = 32 ->
  exists build,
    form.ParseSink c data = (Some build, ".wav", None)
    /\ forall ws, build ws
         = pipe.WavSink {| wav.BitDepth := depth; wav.WriteSeeker := ws |}.
Proof.
  intros Hformat Hfield Hdepth.
  unfold form.ParseSink, form.parseWAVSink. rewrite Hformat.
  rewrite (parseIntValue_of_FormatInt data _ _ depth) by (assumption || lia).
  apply wav_Build_accepts in Hdepth. unfold input.wavFormat.Build in *.
  destruct (decide _); [|discriminate]. cbn. eexists. split; reflexivity.
Qed.

(** X23: a form whose format is ".mp3" in any letter case is parsed
    without error whenever its fields hold a supported tuple: a supported
    channel mode in decimal, one of the modes "VBR", "CBR", "ABR", a rate
    of the range of that mode in the field of that mode, and either no
    quality switch or the switch "true" with a quality from 0 to 9.  The
    closure builds the mp3 sink of exactly these parameters on the stream
    it is given, under the extension ".mp3". *)
Theorem supported_mp3_parameters_can_be_requested
    (c : form.Encode) (data : url.Values) (mode : string) (rate cm : Z)
    (quality : option Z) :
  strings.ToLower (url.Get data "format") = ".mp3" ->
  url.Get data "mp3-channel-mode" = strconv.FormatInt cm ->
  url.Get data "mp3-bit-rate-mode" = mode ->
  url.Get data (if String.eqb mode "VBR" then "mp3-vbr-quality"
                else "mp3-bit-rate") = strconv.FormatInt rate ->
  match quality with
  | None => url.Get data "mp3-use-quality" = ""
  | Some q => url.Get data "mp3-use-quality" = "true"
              /\ url.Get data "mp3-quality" = strconv.FormatInt q
              /\ 0 <= q <= 9
  end ->
  cm ∈ input.mp3Format.ChannelModes input.Mp3 ->
  - 2 ^ 63 <= cm < 2 ^ 63 ->
  rate_in_range mode rate ->
  exists build brm,
    form.ParseSink c data = (Some build, ".mp3", None)
    /\ bit_rate_mode mode rate brm
    /\ forall ws, build ws
         = pipe.Mp3Sink {| mp3.SinkBitRateMode := brm;
                           mp3.SinkChannelMode := cm;
                           mp3.Writer := ws;
                           mp3.Quality := quality |}.
Proof.
  intros Hformat Hcm Hmode Hrate Hquality Hin Hbound Hrange.
  assert (Hread : form.parseMP3Sink data
    = input.mp3Format.Build input.Mp3 mode rate cm
        (match quality with Some _ => true | None => false end)
        (default 0 quality)).
  { unfold form.parseMP3Sink.
    rewrite (parseIntValue_of_FormatInt data _ _ cm) by assumption.
    rewrite Hmode.
    cbn [input.Mp3 input.mp3Format.VBR input.mp3Format.CBR input.mp3Format.ABR].
    assert (Hrate_read :
      (if String.eqb mode "" then Err ErrNoBitRateMode
       else Ok tt) = Ok tt
      /\ (if String.eqb mode "VBR"
          then form.parseIntValue data "mp3-vbr-quality" "vbr quality"
          else if String.eqb mode "CBR"
          then form.parseIntValue data "mp3-bit-rate" "bit rate"
          else if String.eqb mode "ABR"
          then form.parseIntValue data "mp3-bit-rate" "bit rate"
          else Ok 0) = Ok rate).
    { destruct Hrange as [[-> ?] | [[-> | ->] ?]]; cbn in *;
        (split; [reflexivity|]);
        apply parseIntValue_of_FormatInt; (assumption || lia). }
    destruct Hrate_read as [Hnonempty ->].
    destruct (String.eqb mode ""); [discriminate|].
    unfold form.parseBoolValue.
    destruct quality as [q|].
    - destruct Hquality as (-> & Hq & ?). cbn.
      rewrite (parseIntValue_of_FormatInt data _ _ q) by (assumption || lia).
      reflexivity.
    - rewrite Hquality. reflexivity. }
  assert (Hok : is_ok (input.mp3Format.Build input.Mp3 mode rate cm
        (match quality with Some _ => true | None => false end)
        (default 0 quality)) = true).
  { apply input_Build_accepts. split; [exact Hin|]. split; [exact Hrange|].
    destruct quality as [q|]; [|discriminate]. intros _. apply Hquality. }
  destruct (input.mp3Format.Build _ _ _ _ _ _) as [build|] eqn:Hbuild;
    [|discriminate].
  destruct (input_Build_sink _ _ _ _ _ _ Hbuild) as [brm Hsink].
  exists build, brm.
  unfold form.ParseSink. rewrite Hformat, Hread. cbn. split; [reflexivity|].
  split.
  - revert Hbuild. rewrite Hsink. clear Hread Hok.
    unfold input.mp3Format.Build, input.mp3Format.bitRate, bit_rate_mode.
    cbn [input.Mp3 input.mp3Format.VBR input.mp3Format.CBR input.mp3Format.ABR
         input.mp3Format.MaxBitRate input.mp3Format.MinBitRate
         input.mp3Format.ChannelModes].
    destruct (decide _); [|discriminate].
    destruct Hrange as [[-> ?] | [[-> | ->] ?]]; cbn; split_ltb;
      try lia; destruct quality; cbn; split_ltb; try discriminate;
      intros [= Heq];
      apply (f_equal (fun f => f (Upload ""))) in Heq;
      unfold input.mp3Format.sink in Heq; cbn in Heq;
      injection Heq as <-; tauto.
  - intros ws. rewrite Hsink. unfold input.mp3Format.sink.
    now destruct quality.
Qed.
End Requests.

(** ** The further properties at concrete requests *)

(** X3 at an upload whose pipe fails while running: "track.wav" is closed
    once, last. *)
Lemma uploaded_file_closed_exactly_once_witness :
  let w := scenario.world 100 scenario.vbr_quality_4
             (Some (ErrExternal "unexpected EOF")) in
  let tr := @controller.Convert _ (@form.Encode_ConvertForm cmd.channel_modes)
              scenario.FilePump scenario.limits_1MB 1024 "/tmp/phono" w in
  trace.count trace.asks_file tr = 1%nat
  /\ trace.count trace.closes_upload tr = 1%nat
  /\ last tr = Some (controller.EvClose (Upload "track.wav")).
Proof.
  cbv zeta. split; [vm_compute; reflexivity|].
  apply (@uploaded_file_closed_exactly_once _
           (@form.Encode_ConvertForm cmd.channel_modes)
           scenario.FilePump scenario.limits_1MB 1024 "/tmp/phono"
           (scenario.world 100 scenario.vbr_quality_4
              (Some (ErrExternal "unexpected EOF")))
           "track.wav").
  - vm_compute; discriminate.
  - reflexivity.
Defined.

(** X4 at a request that is delivered: three headers, the length being
    the 4242 bytes of the temp file. *)
Lemma headers_only_after_successful_run_witness :
  let w := scenario.world 100 scenario.vbr_quality_4 None in
  let tr := @controller.Convert _ (@form.Encode_ConvertForm cmd.channel_modes)
              scenario.FilePump scenario.limits_1MB 1024 "/tmp/phono" w in
  In (controller.EvSetHeader "Content-Length" "4242") tr
  /\ controller.PipeNewErr w = None
  /\ controller.PipeRunErr w = None
  /\ controller.SeekErr w = None
  /\ trace.count trace.sets_header tr = 3%nat
  /\ exists size,
       controller.StatResult w = Ok size
       /\ In (controller.EvSetHeader "Content-Length" (strconv.FormatInt size)) tr.
Proof.
  cbv zeta. split; [vm_compute; tauto|].
  apply (@headers_only_after_successful_run _
           (@form.Encode_ConvertForm cmd.channel_modes)
           scenario.FilePump scenario.limits_1MB 1024 "/tmp/phono"
           (scenario.world 100 scenario.vbr_quality_4 None)).
  vm_compute; discriminate.
Defined.

(** X5 at a request whose pipe fails while running. *)
Lemma failed_pipe_is_discarded_witness :
  let w := scenario.world 100 scenario.vbr_quality_4
             (Some (ErrExternal "unexpected EOF")) in
  let tr := @controller.Convert _ (@form.Encode_ConvertForm cmd.channel_modes)
              scenario.FilePump scenario.limits_1MB 1024 "/tmp/phono" w in
  trace.count trace.runs_pipe tr = 1%nat
  /\ trace.none trace.reads_back tr = true
  /\ trace.none trace.sets_header tr = true
  /\ trace.count trace.fails tr = 1%nat
  /\ In (controller.EvError (ErrExecutePipe (ErrExternal "unexpected EOF"))
           http.StatusBadRequest) tr.
Proof.
  cbv zeta. split; [vm_compute; reflexivity|].
  destruct (@failed_pipe_is_discarded _
              (@form.Encode_ConvertForm cmd.channel_modes)
              scenario.FilePump scenario.limits_1MB 1024 "/tmp/phono"
              (scenario.world 100 scenario.vbr_quality_4
                 (Some (ErrExternal "unexpected EOF")))
              (ErrExternal "unexpected EOF"))
    as (Hread & Hset & Hfails & _ & Hrun).
  - vm_compute; discriminate.
  - right. split; reflexivity.
  - split; [exact Hread|]. split; [exact Hset|]. split; [exact Hfails|].
    apply Hrun. reflexivity.
Defined.

(** X6 at a request for mp3 at variable rate 4: the download is named
    "result_1.mp3". *)
Lemma delivered_response_witness :
  let w := scenario.world 100 scenario.vbr_quality_4 None in
  let tr := @controller.Convert _ (@form.Encode_ConvertForm cmd.channel_modes)
              scenario.FilePump scenario.limits_1MB 1024 "/tmp/phono" w in
  trace.response tr
  = [controller.EvSetHeader "Content-Disposition"
       "attachment; filename=result_1.mp3";
     controller.EvSetHeader "Content-Type" "audio/mpeg";
     controller.EvSetHeader "Content-Length" "4242";
     controller.EvCopy "/tmp/phono/001"]
  /\ In (controller.EvPipeNew 1024 (pipe.WavPump (Upload "track.wav"))
           (pipe.Mp3Sink
              {| mp3.SinkBitRateMode := mp3.VBR 4; mp3.SinkChannelMode := 2;
                 mp3.Writer := TempFile "/tmp/phono/001";
                 mp3.Quality := None |})) tr
  /\ trace.count trace.fails tr = 0%nat.
Proof.
  cbv zeta.
  apply (@delivered_response _
           (@form.Encode_ConvertForm cmd.channel_modes)
           scenario.FilePump scenario.limits_1MB 1024 "/tmp/phono"
           (scenario.world 100 scenario.vbr_quality_4 None)
           1048576 4242 scenario.vbr_quality_4 "track.wav" "/tmp/phono/001"
           ".mp3" (pipe.WavPump (Upload "track.wav"))
           (fun ws => pipe.Mp3Sink
              {| mp3.SinkBitRateMode := mp3.VBR 4; mp3.SinkChannelMode := 2;
                 mp3.Writer := ws; mp3.Quality := None |}));
    first [reflexivity | cbn; lia | vm_compute; reflexivity].
Defined.

(** X10 at the bit depth 24 and at a negative number. *)
Lemma parseIntValue_reads_back_FormatInt_witness :
  form.parseIntValue (<["wav-bit-depth" := [strconv.FormatInt 24]]> ∅)
    "wav-bit-depth" "bit depth" = Ok 24
  /\ form.parseIntValue
       (<["mp3-bit-rate" := [strconv.FormatInt (-320)]]> scenario.vbr_quality_4)
       "mp3-bit-rate" "bit rate" = Ok (-320).
Proof.
  split; apply parseIntValue_reads_back_FormatInt; lia.
Defined.

(** X20 at a one-byte upload to "/.wav", the form being [form.Encode{}]. *)
Lemma zero_limits_refuse_every_upload_witness :
  exists cause,
    trace.response
      (@controller.Convert _ (@form.Encode_ConvertForm cmd.channel_modes)
         scenario.FilePump scenario.no_limits 1024 "/tmp/phono"
         (scenario.world 1 scenario.vbr_quality_4 None))
    = [controller.EvError cause http.StatusBadRequest]
    /\ trace.count trace.asks_file
         (@controller.Convert _ (@form.Encode_ConvertForm cmd.channel_modes)
            scenario.FilePump scenario.no_limits 1024 "/tmp/phono"
            (scenario.world 1 scenario.vbr_quality_4 None)) = 0%nat
    /\ trace.count trace.acquires
         (@controller.Convert _ (@form.Encode_ConvertForm cmd.channel_modes)
            scenario.FilePump scenario.no_limits 1024 "/tmp/phono"
            (scenario.world 1 scenario.vbr_quality_4 None)) = 0%nat.
Proof.
  apply (@zero_limits_refuse_every_upload cmd.channel_modes
           scenario.FilePump scenario.no_limits 1024 "/tmp/phono"
           (scenario.world 1 scenario.vbr_quality_4 None));
    first [reflexivity | cbn; lia].
Defined.

(** X22 at a request for "wav", written ".WAV", at bit depth 16. *)
Lemma supported_wav_depth_can_be_requested_witness :
  exists build,
    @form.ParseSink cmd.channel_modes scenario.limits_1MB
      (<["format" := [".WAV"]]> (<["wav-bit-depth" := ["16"]]> ∅))
    = (Some build, ".wav", None)
    /\ forall ws, build ws
         = pipe.WavSink {| wav.BitDepth := 16; wav.WriteSeeker := ws |}.
Proof.
  apply (@supported_wav_depth_can_be_requested cmd.channel_modes
           scenario.limits_1MB
           (<["format" := [".WAV"]]> (<["wav-bit-depth" := ["16"]]> ∅)) 16).
  - vm_compute; reflexivity.
  - vm_compute; reflexivity.
  - tauto.
Defined.

(** X23 at the request "mp3, variable rate 4, joint stereo, quality 7". *)
Lemma supported_mp3_parameters_can_be_requested_witness :
  exists build brm,
    @form.ParseSink cmd.channel_modes scenario.limits_1MB
      scenario.vbr_with_quality_7
    = (Some build, ".mp3", None)
    /\ bit_rate_mode "VBR" 4 brm
    /\ forall ws, build ws
         = pipe.Mp3Sink {| mp3.SinkBitRateMode := brm;
                           mp3.SinkChannelMode := 2;
                           mp3.Writer := ws;
                           mp3.Quality := Some 7 |}.
Proof.
  apply (@supported_mp3_parameters_can_be_requested cmd.channel_modes
           scenario.limits_1MB scenario.vbr_with_quality_7 "VBR" 4 2 (Some 7)).
  - vm_compute; reflexivity.
  - vm_compute; reflexivity.
  - vm_compute; reflexivity.
  - vm_compute; reflexivity.
  - split; [vm_compute; reflexivity|]. split; [vm_compute; reflexivity | lia].
  - cbn. set_solver.
  - lia.
  - left. split; [reflexivity | lia].
Defined.

(** X13 at the request "mp3, variable rate 4, joint stereo". *)
Lemma ParseSink_extension_names_the_sink_witness :
  let fn : input.BuildFunc :=
    fun ws => pipe.Mp3Sink
      {| mp3.SinkBitRateMode := mp3.VBR 4; mp3.SinkChannelMode := 2;
         mp3.Writer := ws; mp3.Quality := None |} in
  @form.ParseSink cmd.channel_modes scenario.limits_1MB scenario.vbr_quality_4
  = (Some fn, ".mp3", None)
  /\ exists build, Some fn = Some build
       /\ ((".mp3" = ".wav"
            /\ forall ws, exists s,
                 build ws = pipe.WavSink s /\ wav.WriteSeeker s = ws
                 /\ (wav.BitDepth s = 8 \/ wav.BitDepth s = 16
                     \/ wav.BitDepth s = 24 \/ wav.BitDepth s = 32))
           \/ (".mp3" = ".mp3"
               /\ forall ws, exists s,
                    build ws = pipe.Mp3Sink s /\ mp3.Writer s = ws
                    /\ mp3.SinkChannelMode s
                       ∈ input.mp3Format.ChannelModes
                           (@input.Mp3 cmd.channel_modes))).
Proof.
  cbv zeta. split; [vm_compute; reflexivity|].
  apply (@ParseSink_extension_names_the_sink cmd.channel_modes
           scenario.limits_1MB scenario.vbr_quality_4).
  vm_compute; reflexivity.
Defined.
